(** * GenBoard prompt-enhancing MVP: a shallow embedding and its properties

    The development follows the Python sources under
    [MVP-Feature-PromptEnhancing/src]:

    - [utils/global_counter.py]   — the file-backed usage counters,
    - [services/video_service.py] — the polling loop of [generate_video],
    - [services/prompt_enhancing.py] — the multi-stage enhancement session.

    Part I holds the model: module [Py] for the Python values the code
    manipulates, [Runtime] for the state of the Streamlit process and the
    monad the methods run in, one module per Python class, [Spec] for the
    vocabulary of the properties and [Scenario] for concrete inputs.
    Part II holds the properties, one module per component. *)

From Stdlib Require Import ZArith NArith QArith List String Ascii Bool Lia.
From Stdlib Require Import DecimalString.
From ExtLib Require Import Structures.Monad Structures.MonadState
  Structures.MonadExc.
Import ListNotations.
Import MonadNotation.
Local Open Scope string_scope.
Local Open Scope monad_scope.

(* ===================================================================== *)
(** * Part I — the model                                                  *)
(* ===================================================================== *)

(** ** Python values *)

Module Py.

(** *** [str]

    A Python [str] is represented by its UTF-8 encoding, so that the
    literals of the source (which contain emoji) are written as they are.
    Characters are recovered by grouping each lead byte with the
    continuation bytes (0x80..0xBF) that follow it. *)

Definition is_continuation (a : ascii) : bool :=
  let n := N_of_ascii a in ((128 <=? n) && (n <? 192))%N.

Definition starts_with_continuation (s : string) : bool :=
  match s with
  | EmptyString => false
  | String a _ => is_continuation a
  end.

Fixpoint chars (s : string) : list string :=
  match s with
  | EmptyString => []
  | String a rest =>
      match chars rest with
      | c :: cs =>
          if starts_with_continuation c then String a c :: cs
          else String a EmptyString :: c :: cs
      | [] => [String a EmptyString]
      end
  end.

(** [len(s)]: the number of characters. *)
Definition len_str (s : string) : Z := Z.of_nat (List.length (chars s)).

Definition payload (a : ascii) (mask : N) : N := N.land (N_of_ascii a) mask.

(** The code point of one UTF-8 encoded character. *)
Definition codepoint (c : string) : N :=
  match c with
  | String a EmptyString => N_of_ascii a
  | String a (String b EmptyString) =>
      N.lor (N.shiftl (payload a 31) 6) (payload b 63)
  | String a (String b (String d EmptyString)) =>
      N.lor (N.shiftl (payload a 15) 12)
        (N.lor (N.shiftl (payload b 63) 6) (payload d 63))
  | String a (String b (String d (String e _))) =>
      N.lor (N.shiftl (payload a 7) 18)
        (N.lor (N.shiftl (payload b 63) 12)
           (N.lor (N.shiftl (payload d 63) 6) (payload e 63)))
  | EmptyString => 0
  end%N.

(** [str.isspace] on one character: the 29 code points CPython treats as
    white space. *)
Definition isspace_cp (n : N) : bool :=
  (((9 <=? n) && (n <=? 13)) || ((28 <=? n) && (n <=? 32))
   || (n =? 133) || (n =? 160) || (n =? 5760)
   || ((8192 <=? n) && (n <=? 8202))
   || (n =? 8232) || (n =? 8233) || (n =? 8239) || (n =? 8287)
   || (n =? 12288))%N.

Definition isspace (c : string) : bool := isspace_cp (codepoint c).

Fixpoint drop_spaces (cs : list string) : list string :=
  match cs with
  | c :: cs' => if isspace c then drop_spaces cs' else cs
  | [] => []
  end.

Definition join (cs : list string) : string :=
  fold_right String.append EmptyString cs.

(** [s.strip()] with no argument. *)
Definition strip (s : string) : string :=
  join (rev (drop_spaces (rev (drop_spaces (chars s))))).

(** Truth value of a [str]: non-empty. *)
Definition truthy_str (s : string) : bool :=
  match s with EmptyString => false | _ => true end.

(** [str(n)] / [f"{n}"] for an [int]. *)
Definition str_of_int (z : Z) : string := NilZero.string_of_int (Z.to_int z).

(** *** [dict] with [str] keys

    A Python dict keeps insertion order, which [json.dumps] exposes: it is
    an association list without repeated keys; assigning to a present key
    replaces the value in place, assigning to an absent key appends. *)

Definition dict (V : Type) : Type := list (string * V).

Fixpoint lookup {V} (d : dict V) (k : string) : option V :=
  match d with
  | [] => None
  | (k', v) :: d' => if String.eqb k' k then Some v else lookup d' k
  end.

Definition contains {V} (d : dict V) (k : string) : bool :=
  match lookup d k with Some _ => true | None => false end.

Fixpoint assign {V} (d : dict V) (k : string) (v : V) : dict V :=
  match d with
  | [] => [(k, v)]
  | (k', v') :: d' =>
      if String.eqb k' k then (k, v) :: d' else (k', v') :: assign d' k v
  end.

Definition get_default {V} (d : dict V) (k : string) (default : V) : V :=
  match lookup d k with Some v => v | None => default end.

Definition keys {V} (d : dict V) : list string := map fst d.

Definition len_dict {V} (d : dict V) : Z := Z.of_nat (List.length d).

(** *** Dynamically typed values

    What [json.load] can return and what the counter record holds.
    Non-integer JSON numbers are left out: [_save_counters] never writes
    one. *)

#[warnings="-register-all"]
Inductive value : Type :=
| VNone
| VBool (b : bool)
| VInt (z : Z)
| VStr (s : string)
| VList (l : list value)
| VDict (d : list (string * value)).

(** *** Exceptions *)

Inductive exn : Type :=
| KeyError (key : string)
| TypeError (msg : string)
| ValueError (msg : string)
| AttributeError (msg : string)
| IOError (msg : string)
| JSONDecodeError (msg : string)
| ServiceError (msg : string)    (* raised by an SDK call *)
| RerunException.                (* raised by [st.rerun()] *)

(** [str(e)].  [str(KeyError(k))] is [repr(k)]; the quoting below is that
    of a key without quotes, backslashes or unprintable characters. *)
Definition str_exn (e : exn) : string :=
  match e with
  | KeyError k => "'" ++ k ++ "'"
  | TypeError m | ValueError m | AttributeError m | IOError m
  | JSONDecodeError m | ServiceError m => m
  | RerunException => ""
  end.

(** [except Exception] does not catch Streamlit's script-control
    exceptions, which derive from [BaseException]. *)
Definition is_Exception (e : exn) : bool :=
  match e with RerunException => false | _ => true end.

Definition is_AttributeError (e : exn) : bool :=
  match e with AttributeError _ => true | _ => false end.

Definition is_IOError (e : exn) : bool :=
  match e with IOError _ => true | _ => false end.

Definition is_JSONDecodeError_or_IOError (e : exn) : bool :=
  match e with IOError _ | JSONDecodeError _ => true | _ => false end.

(** The outcome of evaluating an expression: a value or a raised
    exception. *)
Inductive outcome (A : Type) : Type :=
| Ok (a : A)
| Raise (e : exn).
Arguments Ok {A} a.
Arguments Raise {A} e.

(** An [int] operand: [bool] is a subclass of [int]. *)
Definition as_int (v : value) : option Z :=
  match v with
  | VInt z => Some z
  | VBool b => Some (if b then 1 else 0)%Z
  | _ => None
  end.

(** [v + n] for an [int] [n]. *)
Definition add_int (v : value) (n : Z) : outcome value :=
  match as_int v with
  | Some z => Ok (VInt (z + n))
  | None => Raise (TypeError "unsupported operand type(s) for +")
  end.

(** [v != n] for an [int] [n]. *)
Definition ne_int (v : value) (n : Z) : bool :=
  match as_int v with
  | Some z => negb (z =? n)%Z
  | None => true
  end.

(** [v.append(x)]. *)
Definition append (v x : value) : outcome value :=
  match v with
  | VList l => Ok (VList (l ++ [x])%list)
  | _ => Raise (AttributeError "object has no attribute 'append'")
  end.

(** Truth value. *)
Definition truthy (v : value) : bool :=
  match v with
  | VNone => false
  | VBool b => b
  | VInt z => negb (z =? 0)%Z
  | VStr s => truthy_str s
  | VList l => match l with [] => false | _ => true end
  | VDict d => match d with [] => false | _ => true end
  end.

(** [for item in v]: the items a [for] loop or a generator visits. *)
Definition iterate (v : value) : outcome (list value) :=
  match v with
  | VList l => Ok l
  | VStr s => Ok (map VStr (chars s))
  | VDict d => Ok (map (fun kv => VStr (fst kv)) d)
  | _ => Raise (TypeError "object is not iterable")
  end.

(** [len(v)]. *)
Definition len (v : value) : outcome Z :=
  match v with
  | VList l => Ok (Z.of_nat (List.length l))
  | VStr s => Ok (len_str s)
  | VDict d => Ok (len_dict d)
  | _ => Raise (TypeError "object has no len()")
  end.

(** [item[k]] for a [str] key [k]. *)
Definition getitem (item : value) (k : string) : outcome value :=
  match item with
  | VDict d =>
      match lookup d k with
      | Some v => Ok v
      | None => Raise (KeyError k)
      end
  | VStr _ => Raise (TypeError "string indices must be integers")
  | VList _ => Raise (TypeError "list indices must be integers or slices")
  | _ => Raise (TypeError "object is not subscriptable")
  end.

(** [sum(...)] of a generator of values, from the left, starting at 0. *)
Fixpoint sum_from (acc : Z) (xs : list (outcome value)) : outcome Z :=
  match xs with
  | [] => Ok acc
  | Raise e :: _ => Raise e
  | Ok v :: xs' =>
      match as_int v with
      | Some z => sum_from (acc + z) xs'
      | None => Raise (TypeError "unsupported operand type(s) for +")
      end
  end.

(** Hashable values compare as dict keys do: [True == 1]. *)
Definition hashable (v : value) : bool :=
  match v with VList _ | VDict _ => false | _ => true end.

Definition key_eqb (a b : value) : bool :=
  match as_int a, as_int b with
  | Some x, Some y => (x =? y)%Z
  | _, _ =>
      match a, b with
      | VNone, VNone => true
      | VStr s, VStr t => String.eqb s t
      | _, _ => false
      end
  end.

(** *** [json.dumps(d, indent=2)] for a dict of strings *)

Definition hex_digit (n : N) : ascii :=
  ascii_of_N (if (n <? 10)%N then 48 + n else 87 + n)%N.

Definition hex4 (n : N) : string :=
  String (hex_digit (N.land (N.shiftr n 12) 15))
    (String (hex_digit (N.land (N.shiftr n 8) 15))
       (String (hex_digit (N.land (N.shiftr n 4) 15))
          (String (hex_digit (N.land n 15)) EmptyString))).

Definition backslash : string := String (ascii_of_N 92) EmptyString.
Definition dquote : string := String (ascii_of_N 34) EmptyString.
Definition newline : string := String (ascii_of_N 10) EmptyString.

(** One character under [ensure_ascii=True]. *)
Definition json_escape_char (c : string) : string :=
  let n := codepoint c in
  if (n =? 34)%N then backslash ++ dquote
  else if (n =? 92)%N then backslash ++ backslash
  else if (n =? 10)%N then backslash ++ "n"
  else if (n =? 13)%N then backslash ++ "r"
  else if (n =? 9)%N then backslash ++ "t"
  else if (n =? 8)%N then backslash ++ "b"
  else if (n =? 12)%N then backslash ++ "f"
  else if ((32 <=? n) && (n <=? 126))%N then c
  else if (n <? 65536)%N then backslash ++ "u" ++ hex4 n
  else
    let v := (n - 65536)%N in
    backslash ++ "u" ++ hex4 (N.lor 55296 (N.land (N.shiftr v 10) 1023))
    ++ backslash ++ "u" ++ hex4 (N.lor 56320 (N.land v 1023)).

Definition json_string (s : string) : string :=
  dquote ++ join (map json_escape_char (chars s)) ++ dquote.

Fixpoint json_items (d : dict string) : string :=
  match d with
  | [] => ""
  | [(k, v)] => "  " ++ json_string k ++ ": " ++ json_string v
  | (k, v) :: d' =>
      "  " ++ json_string k ++ ": " ++ json_string v ++ "," ++ newline
      ++ json_items d'
  end.

Definition json_dumps (d : dict string) : string :=
  match d with
  | [] => "{}"
  | _ => "{" ++ newline ++ json_items d ++ newline ++ "}"
  end.

End Py.

(** ** The running process *)

Module Runtime.
Import Py.

(** One reading of [datetime.now()]: the instant, in microseconds, and
    what [isoformat()] prints for it. *)
Record Instant : Type := {
  micros : Z;
  isoformat : string
}.

(** An entry of [iteration_history]; [stage] is absent from the
    [session_started] and [final_prompt_generated] entries. *)
Record HistoryEntry : Type := {
  timestamp : string;
  action : string;
  stage : option string;
  data : dict string
}.

(** [st.session_state.enhancement_session]. *)
Record Session : Type := {
  active : bool;
  current_stage : string;
  stages_data : dict string;
  iteration_history : list HistoryEntry;
  start_time : option Instant;
  final_prompt : option string
}.

(** The arguments of [client.chat.completions.create]. *)
Record ChatRequest : Type := {
  model : string;
  messages : list (string * string);   (* role, content *)
  temperature : Q;
  max_tokens : Z
}.

(** The OpenAI client: given the requests already sent and a new one, the
    text of [response.choices[0].message.content] or the exception the
    call raises. *)
Definition Client : Type := list ChatRequest -> ChatRequest -> outcome string.

(** The counter file as [_load_counters] finds it. *)
Inductive FileState : Type :=
| Missing                      (* [exists()] is false *)
| Unreadable (msg : string)    (* [open] raises [IOError] *)
| Malformed (msg : string)     (* [json.load] raises [JSONDecodeError] *)
| Holds (v : value).           (* [json.load] returns [v] *)

Inductive UiEvent : Type :=
| StSuccess (msg : string)
| StError (msg : string)
| StWarning (msg : string)
| StInfo (msg : string)
| StMarkdown (msg : string).

Record LogRecord : Type := {
  level : string;
  log_action : string;
  details : dict value
}.

Record World : Type := {
  (* st.session_state *)
  enhancement_session : option Session;
  client : option Client;
  confirm_reset : option bool;
  enhanced_prompts : option value;
  (* global_counter *)
  counters : dict value;
  (* the host *)
  counter_file : FileState;
  write_error : option string;   (* [open(.., 'w')] raises [IOError] *)
  clock : nat -> Instant;        (* successive readings of the clock *)
  clock_reads : nat;
  requests_sent : list ChatRequest;
  (* what the process emits *)
  ui : list UiEvent;
  log : list LogRecord;
  stdout : list string
}.

(** A method body: it runs from a state of the process to a result or a
    raised exception, and the state it leaves.  An exception keeps the
    mutations made before it was raised. *)
Record M (A : Type) : Type := mkM { run : World -> outcome A * World }.
Arguments mkM {A} run.
Arguments run {A} m w.

#[export] Instance Monad_M : Monad M := {
  ret := fun _ a => mkM (fun w => (Ok a, w));
  bind := fun _ _ c k => mkM (fun w =>
    match run c w with
    | (Ok a, w') => run (k a) w'
    | (Raise e, w') => (Raise e, w')
    end)
}.

#[export] Instance MonadState_M : MonadState World M := {
  get := mkM (fun w => (Ok w, w));
  put := fun w' => mkM (fun _ => (Ok tt, w'))
}.

#[export] Instance MonadExc_M : MonadExc exn M := {
  raise := fun _ e => mkM (fun w => (Raise e, w));
  catch := fun _ c h => mkM (fun w =>
    match run c w with
    | (Ok a, w') => (Ok a, w')
    | (Raise e, w') => run (h e) w'
    end)
}.

Definition lift {A} (o : outcome A) : M A :=
  match o with Ok a => ret a | Raise e => raise e end.

Definition modify (f : World -> World) : M unit :=
  w <- get ;; put (f w).

(** [try: body  except <filter>: handler]. *)
Definition try_except {A} (body : M A) (filter : exn -> bool)
    (handler : exn -> M A) : M A :=
  catch body (fun e => if filter e then handler e else raise e).

Definition exec {A} (c : M A) (w : World) : World := snd (run c w).
Definition result {A} (c : M A) (w : World) : outcome A := fst (run c w).

(** *** Field updates *)

Definition with_session (s : option Session) (w : World) : World :=
  {| enhancement_session := s; client := client w;
     confirm_reset := confirm_reset w;
     enhanced_prompts := enhanced_prompts w; counters := counters w;
     counter_file := counter_file w; write_error := write_error w;
     clock := clock w; clock_reads := clock_reads w;
     requests_sent := requests_sent w; ui := ui w; log := log w;
     stdout := stdout w |}.

Definition with_client (c : option Client) (w : World) : World :=
  {| enhancement_session := enhancement_session w; client := c;
     confirm_reset := confirm_reset w;
     enhanced_prompts := enhanced_prompts w; counters := counters w;
     counter_file := counter_file w; write_error := write_error w;
     clock := clock w; clock_reads := clock_reads w;
     requests_sent := requests_sent w; ui := ui w; log := log w;
     stdout := stdout w |}.

Definition with_confirm_reset (b : option bool) (w : World) : World :=
  {| enhancement_session := enhancement_session w; client := client w;
     confirm_reset := b;
     enhanced_prompts := enhanced_prompts w; counters := counters w;
     counter_file := counter_file w; write_error := write_error w;
     clock := clock w; clock_reads := clock_reads w;
     requests_sent := requests_sent w; ui := ui w; log := log w;
     stdout := stdout w |}.

Definition with_enhanced_prompts (v : option value) (w : World) : World :=
  {| enhancement_session := enhancement_session w; client := client w;
     confirm_reset := confirm_reset w;
     enhanced_prompts := v; counters := counters w;
     counter_file := counter_file w; write_error := write_error w;
     clock := clock w; clock_reads := clock_reads w;
     requests_sent := requests_sent w; ui := ui w; log := log w;
     stdout := stdout w |}.

Definition with_counters (c : dict value) (w : World) : World :=
  {| enhancement_session := enhancement_session w; client := client w;
     confirm_reset := confirm_reset w;
     enhanced_prompts := enhanced_prompts w; counters := c;
     counter_file := counter_file w; write_error := write_error w;
     clock := clock w; clock_reads := clock_reads w;
     requests_sent := requests_sent w; ui := ui w; log := log w;
     stdout := stdout w |}.

Definition with_counter_file (f : FileState) (w : World) : World :=
  {| enhancement_session := enhancement_session w; client := client w;
     confirm_reset := confirm_reset w;
     enhanced_prompts := enhanced_prompts w; counters := counters w;
     counter_file := f; write_error := write_error w;
     clock := clock w; clock_reads := clock_reads w;
     requests_sent := requests_sent w; ui := ui w; log := log w;
     stdout := stdout w |}.

Definition with_clock_reads (n : nat) (w : World) : World :=
  {| enhancement_session := enhancement_session w; client := client w;
     confirm_reset := confirm_reset w;
     enhanced_prompts := enhanced_prompts w; counters := counters w;
     counter_file := counter_file w; write_error := write_error w;
     clock := clock w; clock_reads := n;
     requests_sent := requests_sent w; ui := ui w; log := log w;
     stdout := stdout w |}.

Definition with_requests_sent (l : list ChatRequest) (w : World) : World :=
  {| enhancement_session := enhancement_session w; client := client w;
     confirm_reset := confirm_reset w;
     enhanced_prompts := enhanced_prompts w; counters := counters w;
     counter_file := counter_file w; write_error := write_error w;
     clock := clock w; clock_reads := clock_reads w;
     requests_sent := l; ui := ui w; log := log w;
     stdout := stdout w |}.

Definition with_ui (l : list UiEvent) (w : World) : World :=
  {| enhancement_session := enhancement_session w; client := client w;
     confirm_reset := confirm_reset w;
     enhanced_prompts := enhanced_prompts w; counters := counters w;
     counter_file := counter_file w; write_error := write_error w;
     clock := clock w; clock_reads := clock_reads w;
     requests_sent := requests_sent w; ui := l; log := log w;
     stdout := stdout w |}.

Definition with_log (l : list LogRecord) (w : World) : World :=
  {| enhancement_session := enhancement_session w; client := client w;
     confirm_reset := confirm_reset w;
     enhanced_prompts := enhanced_prompts w; counters := counters w;
     counter_file := counter_file w; write_error := write_error w;
     clock := clock w; clock_reads := clock_reads w;
     requests_sent := requests_sent w; ui := ui w; log := l;
     stdout := stdout w |}.

Definition with_stdout (l : list string) (w : World) : World :=
  {| enhancement_session := enhancement_session w; client := client w;
     confirm_reset := confirm_reset w;
     enhanced_prompts := enhanced_prompts w; counters := counters w;
     counter_file := counter_file w; write_error := write_error w;
     clock := clock w; clock_reads := clock_reads w;
     requests_sent := requests_sent w; ui := ui w; log := log w;
     stdout := l |}.

(** *** The host's services *)

(** [datetime.now()]. *)
Definition now : M Instant :=
  w <- get ;;
  put (with_clock_reads (S (clock_reads w)) w) ;;
  ret (clock w (clock_reads w)).

(** [print(msg)]. *)
Definition print (msg : string) : M unit :=
  modify (fun w => with_stdout (stdout w ++ [msg])%list w).

Definition st_success (msg : string) : M unit :=
  modify (fun w => with_ui (ui w ++ [StSuccess msg])%list w).
Definition st_error (msg : string) : M unit :=
  modify (fun w => with_ui (ui w ++ [StError msg])%list w).
Definition st_warning (msg : string) : M unit :=
  modify (fun w => with_ui (ui w ++ [StWarning msg])%list w).
Definition st_info (msg : string) : M unit :=
  modify (fun w => with_ui (ui w ++ [StInfo msg])%list w).
Definition st_markdown (msg : string) : M unit :=
  modify (fun w => with_ui (ui w ++ [StMarkdown msg])%list w).

(** [st.rerun()] stops the script run by raising. *)
Definition st_rerun {A} : M A := raise RerunException.

(** [app_logger]: the record handed to the logger.  The logger's own
    time stamp and session identifier are its business and are not
    part of the record kept here. *)
Definition emit (lvl act : string) (d : dict value) : M unit :=
  modify (fun w =>
    with_log
      (log w ++ [{| level := lvl; log_action := act; details := d |}])%list w).

Definition log_user_action (act : string) (d : dict value) : M unit :=
  emit "INFO" act d.
Definition log_error (error_type error_message : string) (context : dict value)
  : M unit :=
  emit "ERROR" "error"
    [("error_type", VStr error_type); ("error_message", VStr error_message);
     ("context", VDict context)].
Definition log_api_call (service mdl : string) (success : bool)
    (error : option string) : M unit :=
  emit (match error with Some e => if truthy_str e then "ERROR" else "INFO"
                       | None => "INFO" end) "api_call"
    ([("service", VStr service); ("model", VStr mdl);
      ("success", VBool success)]
     ++ match error with
        | Some e => if truthy_str e then [("error", VStr e)] else []
        | None => []
        end)%list.

(** [@tracer.trace_api_call(service, model)]: the wrapped call is logged
    as a success when it returns and as a failure, then re-raised, when it
    raises an [Exception].  The prompt length and the response time that
    the decorator also logs are measurements, left out. *)
Definition trace_api_call {A} (service mdl : string) (func : M A) : M A :=
  try_except
    (r <- func ;; log_api_call service mdl true None ;; ret r)
    is_Exception
    (fun e => log_api_call service mdl false (Some (str_exn e)) ;; raise e).

End Runtime.

(** ** [utils/global_counter.py]: class [GlobalCounter] *)

Module GlobalCounter.
Import Py Runtime.

(** [self.counters[k]], [self.counters[k] = v] and
    [self.counters.get(k, default)]. *)
Definition counters_getitem (k : string) : M value :=
  w <- get ;;
  match lookup (counters w) k with
  | Some v => ret v
  | None => raise (KeyError k)
  end.

Definition counters_setitem (k : string) (v : value) : M unit :=
  modify (fun w => with_counters (assign (counters w) k v) w).

Definition counters_get (k : string) (default : value) : M value :=
  w <- get ;; ret (get_default (counters w) k default).

Definition _get_default_counters : M (dict value) :=
  first_used <- now ;;
  last_updated <- now ;;
  ret [("videos_generated", VInt 0);
       ("images_generated", VInt 0);
       ("chat_messages", VInt 0);
       ("enhanced_prompts", VInt 0);
       ("first_used", VStr (isoformat first_used));
       ("last_updated", VStr (isoformat last_updated));
       ("video_durations", VList []);
       ("videos_5s", VInt 0);
       ("videos_8s", VInt 0);
       ("videos_6s", VInt 0);
       ("videos_7s", VInt 0);
       ("total_video_duration_seconds", VInt 0)].

(** [if k not in data: data[k] = 0]. *)
Definition ensure_key (k : string) (data : dict value) : dict value :=
  if negb (contains data k) then assign data k (VInt 0) else data.

(** [open(self.counter_file, 'r')] followed by [json.load(f)].  The
    record read is a JSON object; a document whose top level is not an
    object is not covered. *)
Definition read_json (f : FileState) : M (dict value) :=
  match f with
  | Missing => raise (IOError "No such file or directory")
  | Unreadable msg => raise (IOError msg)
  | Malformed msg => raise (JSONDecodeError msg)
  | Holds (VDict d) => ret d
  | Holds _ => raise (TypeError "counter record is not an object")
  end.

Definition file_exists (f : FileState) : bool :=
  match f with Missing => false | _ => true end.

Definition _load_counters : M (dict value) :=
  w <- get ;;
  if file_exists (counter_file w) then
    try_except
      (data <- read_json (counter_file w) ;;
       (* Ensure all required keys exist *)
       let data := ensure_key "enhanced_prompts" data in
       let data := ensure_key "videos_6s" data in
       let data := ensure_key "videos_7s" data in
       let data := ensure_key "total_video_duration_seconds" data in
       ret data)
      is_JSONDecodeError_or_IOError
      (fun _ => _get_default_counters)
  else _get_default_counters.

(** [GlobalCounter.__init__]. *)
Definition __init__ : M unit :=
  loaded <- _load_counters ;;
  modify (with_counters loaded) ;;
  w <- get ;;
  match enhanced_prompts w with
  | None => modify (with_enhanced_prompts (Some (VInt 0)))
  | Some _ => ret tt
  end.

(** [open(self.counter_file, 'w')] followed by [json.dump]. *)
Definition write_json : M unit :=
  w <- get ;;
  match write_error w with
  | Some msg => raise (IOError msg)
  | None => modify (fun w => with_counter_file (Holds (VDict (counters w))) w)
  end.

Definition _save_counters : M unit :=
  try_except
    (t <- now ;;
     counters_setitem "last_updated" (VStr (isoformat t)) ;;
     write_json)
    is_IOError
    (fun e => print ("Error saving counters: " ++ str_exn e)).

Definition increment_video_count (duration : Z) : M value :=
  n <- counters_getitem "videos_generated" ;;
  n' <- lift (add_int n 1) ;;
  counters_setitem "videos_generated" n' ;;
  durations <- counters_getitem "video_durations" ;;
  match durations with
  | VList l =>
      t <- now ;;
      counters_setitem "video_durations"
        (VList (l ++ [VDict [("duration_seconds", VInt duration);
                             ("generated_at", VStr (isoformat t))]])%list)
  | _ => raise (AttributeError "object has no attribute 'append'")
  end ;;
  (* Update total duration *)
  total <- counters_get "total_video_duration_seconds" (VInt 0) ;;
  total' <- lift (add_int total duration) ;;
  counters_setitem "total_video_duration_seconds" total' ;;
  (* Update specific duration counters *)
  let duration_key := "videos_" ++ str_of_int duration ++ "s" in
  c <- counters_get duration_key (VInt 0) ;;
  c' <- lift (add_int c 1) ;;
  counters_setitem duration_key c' ;;
  _save_counters ;;
  counters_getitem "videos_generated".

Definition increment_image_count : M value :=
  n <- counters_getitem "images_generated" ;;
  n' <- lift (add_int n 1) ;;
  counters_setitem "images_generated" n' ;;
  _save_counters ;;
  counters_getitem "images_generated".

Definition increment_chat_count : M value :=
  n <- counters_getitem "chat_messages" ;;
  n' <- lift (add_int n 1) ;;
  counters_setitem "chat_messages" n' ;;
  _save_counters ;;
  counters_getitem "chat_messages".

Definition increment_enhanced_prompt_count : M value :=
  (* Increment both session state and persistent counter *)
  w <- get ;;
  s' <- lift (add_int (match enhanced_prompts w with
                       | Some v => v
                       | None => VInt 0
                       end) 1) ;;
  modify (with_enhanced_prompts (Some s')) ;;
  c <- counters_get "enhanced_prompts" (VInt 0) ;;
  c' <- lift (add_int c 1) ;;
  counters_setitem "enhanced_prompts" c' ;;
  _save_counters ;;
  counters_getitem "enhanced_prompts".

Definition get_video_count : M value := counters_get "videos_generated" (VInt 0).
Definition get_image_count : M value := counters_get "images_generated" (VInt 0).
Definition get_chat_count : M value := counters_get "chat_messages" (VInt 0).
Definition get_enhanced_prompt_count : M value :=
  counters_get "enhanced_prompts" (VInt 0).
Definition get_videos_5s_count : M value := counters_get "videos_5s" (VInt 0).
Definition get_videos_8s_count : M value := counters_get "videos_8s" (VInt 0).
Definition get_video_durations : M value :=
  counters_get "video_durations" (VList []).

Definition get_total_video_duration : M value :=
  stored_total <- counters_get "total_video_duration_seconds" (VInt 0) ;;
  (* Verify the stored total matches calculated total *)
  durations <- get_video_durations ;;
  items <- lift (iterate durations) ;;
  calculated_total <-
    lift (sum_from 0 (map (fun item => getitem item "duration_seconds") items)) ;;
  (* If they don't match, recalculate and update *)
  if ne_int stored_total calculated_total then
    counters_setitem "total_video_duration_seconds" (VInt calculated_total) ;;
    _save_counters ;;
    ret (VInt calculated_total)
  else ret stored_total.

(** The average is a Python [float]; it is kept as the exact quotient,
    which is the float itself whenever the quotient is representable. *)
Definition get_average_video_duration : M Q :=
  durations <- get_video_durations ;;
  if negb (truthy durations) then ret 0%Q
  else
    total_duration <- get_total_video_duration ;;
    n <- lift (len durations) ;;
    match as_int total_duration with
    | Some t => ret (inject_Z t / inject_Z n)%Q
    | None => raise (TypeError "unsupported operand type(s) for /")
    end.

(** [breakdown[duration] = breakdown.get(duration, 0) + 1]. *)
Fixpoint bump (breakdown : list (value * Z)) (duration : value)
  : list (value * Z) :=
  match breakdown with
  | [] => [(duration, 1%Z)]
  | (k, n) :: rest =>
      if key_eqb k duration then (k, (n + 1)%Z) :: rest
      else (k, n) :: bump rest duration
  end.

Fixpoint breakdown_loop (breakdown : list (value * Z)) (items : list value)
  : outcome (list (value * Z)) :=
  match items with
  | [] => Ok breakdown
  | item :: rest =>
      match getitem item "duration_seconds" with
      | Raise e => Raise e
      | Ok duration =>
          if hashable duration then breakdown_loop (bump breakdown duration) rest
          else Raise (TypeError "unhashable type")
      end
  end.

Definition _get_duration_breakdown : M (list (value * Z)) :=
  durations <- get_video_durations ;;
  items <- lift (iterate durations) ;;
  lift (breakdown_loop [] items).

Record Statistics : Type := {
  total_videos : value;
  total_images : value;
  total_chats : value;
  total_enhanced_prompts : value;
  total_video_duration_seconds : value;
  videos_5s : value;
  videos_8s : value;
  videos_6s : value;
  videos_7s : value;
  average_video_duration_seconds : Q;
  video_count_by_duration : list (value * Z);
  first_used : value;
  last_updated : value
}.

Definition get_statistics : M Statistics :=
  _ <- get_video_durations ;;
  a <- get_video_count ;;
  b <- get_image_count ;;
  c <- get_chat_count ;;
  d <- get_enhanced_prompt_count ;;
  e <- get_total_video_duration ;;
  f <- get_videos_5s_count ;;
  g <- get_videos_8s_count ;;
  h <- counters_get "videos_6s" (VInt 0) ;;
  i <- counters_get "videos_7s" (VInt 0) ;;
  j <- get_average_video_duration ;;
  k <- _get_duration_breakdown ;;
  l <- counters_get "first_used" VNone ;;
  m <- counters_get "last_updated" VNone ;;
  ret {| total_videos := a; total_images := b; total_chats := c;
         total_enhanced_prompts := d; total_video_duration_seconds := e;
         videos_5s := f; videos_8s := g; videos_6s := h; videos_7s := i;
         average_video_duration_seconds := j;
         video_count_by_duration := k;
         first_used := l; last_updated := m |}.

End GlobalCounter.

(** ** [services/video_service.py]: the wait for a video operation

    Lines 44–86 of [VideoService.generate_video]: the polling loop and the
    two checks that follow it.  The long-running operation is whatever
    [client.models.generate_videos] returned; each status poll is a call of
    [client.operations.get]. *)

Module VideoService.

Record Operation : Type := {
  done : bool;
  error : option string   (* [str(operation.error)] when present and truthy *)
}.

(** What [client.operations.get(operation)] does. *)
Inductive PollReply : Type :=
| Replies (operation : Operation)
| Fails (poll_error : string).

(** The remote job: the reply to the poll sent after [k] earlier polls. *)
Definition Job : Type := nat -> PollReply.

Inductive Event : Type :=
| Slept (seconds : Z)
| Polled
| LoggedEvent (name : string) (poll_count : nat)
| LoggedError (name : string).

(** Where lines 44–86 leave [generate_video]: it has returned a string, or
    control goes on to line 88 with the finished operation. *)
Inductive Exit : Type :=
| Return (message : string)
| Proceed (operation : Operation) (poll_count : nat).

Definition max_polls : nat := 60.

(** Leaving the [while] loop: by a [return] inside it, or by its condition
    becoming false. *)
Inductive LoopExit : Type :=
| Returned (message : string)
| Fell (operation : Operation) (poll_count : nat).

(** The [while] loop; [fuel] bounds the number of iterations and [None]
    means that it ran out. *)
Fixpoint poll_loop (fuel : nat) (job : Job) (operation : Operation)
    (poll_count : nat) (trace : list Event) : option (LoopExit * list Event) :=
  if negb (done operation) && (poll_count <? max_polls)%nat then
    match fuel with
    | O => None
    | S fuel' =>
        let trace := (trace ++ [Slept 20; Polled])%list in
        match job poll_count with
        | Replies operation' =>
            let poll_count' := S poll_count in
            let trace :=
              (trace ++ [LoggedEvent "video_generation_polling" poll_count'])%list in
            match error operation' with
            | Some err =>
                Some (Returned ("Error: Video generation failed - " ++ err),
                      (trace ++ [LoggedError "video_generation_operation_error"])%list)
            | None => poll_loop fuel' job operation' poll_count' trace
            end
        | Fails poll_error =>
            Some (Returned ("Error: Failed to check generation status - "
                            ++ poll_error),
                  (trace ++ [LoggedError "video_generation_polling_error"])%list)
        end
    end
  else Some (Fell operation poll_count, trace).

Definition timeout_message : string :=
  "Error: Video generation timed out after 20 minutes".

Definition generate_video_wait (job : Job) (operation : Operation)
  : option (Exit * list Event) :=
  match poll_loop max_polls job operation 0 [] with
  | None => None
  | Some (Returned message, trace) => Some (Return message, trace)
  | Some (Fell operation poll_count, trace) =>
      (* Check if we timed out *)
      if (max_polls <=? poll_count)%nat then
        Some (Return timeout_message,
              (trace ++ [LoggedError "video_generation_timeout"])%list)
      (* Check if operation completed successfully *)
      else if negb (done operation) then
        Some (Return "Error: Video generation did not complete", trace)
      else Some (Proceed operation poll_count, trace)
  end.

Definition polls (trace : list Event) : nat :=
  List.length (filter (fun e => match e with Polled => true | _ => false end) trace).

End VideoService.

(** ** [services/prompt_enhancing.py]: class [PromptEnhancementService] *)

Module PromptEnhancementService.
Import Py Runtime.

Record StageInfo : Type := {
  title : string;
  description : string;
  questions : list string;
  suggestions : list string
}.

(** Refinement stages configuration. *)
Definition REFINEMENT_STAGES : dict StageInfo :=
 [
  ("concept",
    {| title := "🎬 Concept & Setting";
       description := "Define the basic concept, genre, and setting";
       questions :=
        ["What's the main genre or style? (cinematic, documentary, animation, etc.)";
         "Where does this take place? (location, time period, environment)";
         "What's the overall purpose or story goal?"];
       suggestions :=
        ["Cinematic short film";
         "Documentary style";
         "Animation/CGI";
         "Music video aesthetic";
         "Commercial/advertising"] |});
  ("mood",
    {| title := "🎨 Mood & Atmosphere";
       description := "Set the emotional tone, lighting, and atmosphere";
       questions :=
        ["What emotions should viewers feel?";
         "What's the lighting style? (natural, dramatic, soft, etc.)";
         "How would you describe the overall atmosphere?"];
       suggestions :=
        ["Warm and inviting";
         "Dark and mysterious";
         "Bright and energetic";
         "Calm and serene";
         "Tense and dramatic"] |});
  ("subjects",
    {| title := "👥 Characters & Objects";
       description := "Define the main subjects, their style and characteristics";
       questions :=
        ["Who or what are the main subjects?";
         "What's their visual style or appearance?";
         "How do they move or behave?"];
       suggestions :=
        ["Realistic human characters";
         "Stylized/artistic figures";
         "Animals or creatures";
         "Objects and products";
         "Abstract elements"] |});
  ("visual",
    {| title := "📹 Visual Details";
       description := "Specify camera work, composition, and visual effects";
       questions :=
        ["What camera angles or movements?";
         "Any specific visual effects or transitions?";
         "What's the visual composition style?"];
       suggestions :=
        ["Static wide shots";
         "Dynamic camera movement";
         "Close-up details";
         "Aerial/drone perspective";
         "Smooth transitions"] |});
  ("polish",
    {| title := "✨ Final Polish";
       description := "Refine for conciseness and cinematic language";
       questions :=
        ["Any specific technical requirements?";
         "Should we emphasize certain visual elements?";
         "Any final adjustments to the overall vision?"];
       suggestions :=
        ["Add technical camera terms";
         "Emphasize color palette";
         "Include timing/pacing";
         "Specify resolution/format";
         "Add artistic references"] |})
 ].

(** *** The session object *)

(** [st.session_state.enhancement_session]: the attribute must exist. *)
Definition the_session : M Session :=
  w <- get ;;
  match enhancement_session w with
  | Some s => ret s
  | None =>
      raise (AttributeError "st.session_state has no attribute 'enhancement_session'")
  end.

Definition update_session (f : Session -> Session) : M unit :=
  s <- the_session ;;
  modify (with_session (Some (f s))).

Definition with_active (b : bool) (s : Session) : Session :=
  {| active := b; current_stage := current_stage s;
     stages_data := stages_data s; iteration_history := iteration_history s;
     start_time := start_time s; final_prompt := final_prompt s |}.

Definition with_current_stage (c : string) (s : Session) : Session :=
  {| active := active s; current_stage := c;
     stages_data := stages_data s; iteration_history := iteration_history s;
     start_time := start_time s; final_prompt := final_prompt s |}.

Definition with_stages_data (d : dict string) (s : Session) : Session :=
  {| active := active s; current_stage := current_stage s;
     stages_data := d; iteration_history := iteration_history s;
     start_time := start_time s; final_prompt := final_prompt s |}.

Definition with_iteration_history (h : list HistoryEntry) (s : Session)
  : Session :=
  {| active := active s; current_stage := current_stage s;
     stages_data := stages_data s; iteration_history := h;
     start_time := start_time s; final_prompt := final_prompt s |}.

Definition with_final_prompt (p : option string) (s : Session) : Session :=
  {| active := active s; current_stage := current_stage s;
     stages_data := stages_data s; iteration_history := iteration_history s;
     start_time := start_time s; final_prompt := p |}.

(** [session["iteration_history"].append(entry)]. *)
Definition history_append (entry : HistoryEntry) : M unit :=
  update_session (fun s =>
    with_iteration_history (iteration_history s ++ [entry])%list s).

(** [client.chat.completions.create(...)] and the content of its first
    choice. *)
Definition create (c : Client) (request : ChatRequest) : M string :=
  w <- get ;;
  modify (with_requests_sent (requests_sent w ++ [request])%list) ;;
  lift (c (requests_sent w) request).

(** *** The two model calls *)

Definition suggestion_request (stage_info : StageInfo)
    (stage_name user_input : string) (context : dict string) : ChatRequest :=
  {| model := "gpt-4";
     messages :=
       [("system",
         "You are a video prompt optimization expert for Veo 3 AI video generation. 
                    Current stage: " ++ title stage_info ++ " - "
         ++ description stage_info ++ "
                    
                    Help refine the user's input into professional video prompt language.
                    Focus on visual, technical, and cinematic terminology.
                    Be concise but descriptive. Suggest improvements while preserving the user's vision.
                    
                    Previous context: "
         ++ json_dumps context);
        ("user",
         "Stage: " ++ stage_name ++ "
User input: " ++ user_input
         ++ "

Please suggest improvements and refinements for this stage.")];
     temperature := 7 # 10;
     max_tokens := 300 |}.

Definition get_enhancement_suggestion (c : Client)
    (stage_name user_input : string) (context : dict string) : M string :=
  trace_api_call "openai" "gpt-4"
    (try_except
       (stage_info <-
          match lookup REFINEMENT_STAGES stage_name with
          | Some info => ret info
          | None => raise (KeyError stage_name)
          end ;;
        create c (suggestion_request stage_info stage_name user_input context))
       is_Exception
       (fun e =>
          log_error "enhancement_suggestion_error" (str_exn e)
            [("stage", VStr stage_name);
             ("input_length", VInt (len_str user_input))] ;;
          ret ("Error getting suggestion: " ++ str_exn e))).

Definition final_prompt_request (refinement_data : dict string) : ChatRequest :=
  {| model := "gpt-4";
     messages :=
       [("system",
         "You are a video prompt optimization expert for Veo 3 AI video generation.
                    
                    Create a single, cohesive, professional video prompt that combines all the refinement stages.
                    The prompt should be:
                    - Clear and specific
                    - Use professional cinematography language
                    - Be concise but comprehensive
                    - Ready for Veo 3 API use
                    - Include technical details when relevant
                    
                    Return ONLY the final prompt, no explanations.");
        ("user",
         "Combine these refinements into one optimized video prompt:

"
         ++ json_dumps refinement_data)];
     temperature := 3 # 10;
     max_tokens := 400 |}.

Definition generate_final_prompt (c : Client) (refinement_data : dict string)
  : M string :=
  trace_api_call "openai" "gpt-4"
    (try_except
       (content <- create c (final_prompt_request refinement_data) ;;
        ret (strip content))
       is_Exception
       (fun e =>
          log_error "final_prompt_generation_error" (str_exn e)
            [("refinement_stages", VInt (len_dict refinement_data))] ;;
          ret ("Error generating final prompt: " ++ str_exn e))).

(** *** The session engine *)

Definition init_enhancement_session : M unit :=
  w <- get ;;
  match enhancement_session w with
  | None =>
      modify (with_session
                (Some {| active := false;
                         current_stage := "concept";
                         stages_data := [];
                         iteration_history := [];
                         start_time := None;
                         final_prompt := None |}))
  | Some _ => ret tt
  end.

(** [PromptEnhancementService.__init__]. *)
Definition __init__ : M unit := init_enhancement_session.

(** The [try] block at the top of [start_enhancement_flow]: increment
    global enhanced prompt counter with fallback. *)
Definition enhanced_count_with_fallback : M value :=
  try_except GlobalCounter.increment_enhanced_prompt_count
    is_AttributeError
    (fun _ =>
       (* Fallback if method doesn't exist *)
       log_error "missing_enhanced_prompt_counter"
         "increment_enhanced_prompt_count method not found" [] ;;
       ret (VInt 1)).

Definition start_enhancement_flow (initial_idea : string) : M unit :=
  init_enhancement_session ;;
  enhanced_count <- enhanced_count_with_fallback ;;
  entry_time <- now ;;
  started <- now ;;
  update_session (fun _ =>
    {| active := true;
       current_stage := "concept";
       stages_data := [("initial_idea", initial_idea)];
       iteration_history :=
         [{| timestamp := isoformat entry_time;
             action := "session_started";
             stage := None;
             data := [("initial_idea", initial_idea)] |}];
       start_time := Some started;
       final_prompt := None |}) ;;
  log_user_action "enhancement_session_started"
    [("initial_idea_length", VInt (len_str initial_idea));
     ("global_enhanced_count", enhanced_count)] ;;
  st_success "🚀 Enhancement flow started! Let's refine your idea step by step." ;;
  st_rerun.

Definition process_stage_input (stage_name user_input : string)
    (use_ai_suggestion : bool) : M (option string) :=
  _ <- the_session ;;
  (* Store user input *)
  update_session (fun s =>
    with_stages_data (assign (stages_data s) stage_name user_input) s) ;;
  (* Add to iteration history *)
  t <- now ;;
  history_append {| timestamp := isoformat t;
                    action := "stage_completed";
                    stage := Some stage_name;
                    data := [("user_input", user_input)] |} ;;
  log_user_action "enhancement_stage_completed"
    [("stage", VStr stage_name);
     ("input_length", VInt (len_str user_input));
     ("use_ai_suggestion", VBool use_ai_suggestion)] ;;
  (* Get AI suggestion if requested *)
  w <- get ;;
  match use_ai_suggestion, client w with
  | true, Some c =>
      s <- the_session ;;
      ai_suggestion <-
        get_enhancement_suggestion c stage_name user_input (stages_data s) ;;
      t <- now ;;
      history_append {| timestamp := isoformat t;
                        action := "ai_suggestion";
                        stage := Some stage_name;
                        data := [("suggestion", ai_suggestion)] |} ;;
      ret (Some ai_suggestion)
  | _, _ => ret None
  end.

Definition generate_final_optimized_prompt : M unit :=
  s <- the_session ;;
  w <- get ;;
  match client w with
  | Some c =>
      new_prompt <- generate_final_prompt c (stages_data s) ;;
      update_session (with_final_prompt (Some new_prompt)) ;;
      t <- now ;;
      history_append {| timestamp := isoformat t;
                        action := "final_prompt_generated";
                        stage := None;
                        data := [("final_prompt", new_prompt)] |} ;;
      s' <- the_session ;;
      log_user_action "enhancement_final_prompt_generated"
        [("prompt_length", VInt (len_str new_prompt));
         ("stages_completed", VInt (len_dict (stages_data s') - 1))]
  | None => st_error "AI client not available for final prompt generation"
  end.

(** [stages.index(x)]. *)
Fixpoint index (stages : list string) (x : string) : option nat :=
  match stages with
  | [] => None
  | y :: rest =>
      if String.eqb y x then Some O
      else match index rest x with Some i => Some (S i) | None => None end
  end.

Definition advance_to_next_stage : M unit :=
  s <- the_session ;;
  let stages := keys REFINEMENT_STAGES in
  match index stages (current_stage s) with
  | None => raise (ValueError "is not in list")
  | Some current_index =>
      if (S current_index <? List.length stages)%nat then
        match nth_error stages (S current_index) with
        | Some next_stage =>
            update_session (with_current_stage next_stage) ;;
            log_user_action "enhancement_stage_advanced"
              [("new_stage", VStr next_stage);
               ("stage_index", VInt (Z.of_nat (S current_index)))]
        | None => raise (ValueError "list index out of range")
        end
      else
        (* All stages complete, generate final prompt *)
        generate_final_optimized_prompt
  end.

Record ExportMetadata : Type := {
  export_timestamp : string;
  session_duration_minutes : Q;
  total_iterations : Z;
  stages_completed : Z
}.

Record ExportData : Type := {
  metadata : ExportMetadata;
  export_initial_idea : string;
  export_final_prompt : option string;
  refinement_stages : dict string;
  export_iteration_history : list HistoryEntry
}.

Definition not_initial_idea (kv : string * string) : bool :=
  negb (String.eqb (fst kv) "initial_idea").

Definition export_session_data : M ExportData :=
  s <- the_session ;;
  stamp <- now ;;
  duration <-
    match start_time s with
    | Some started =>
        t <- now ;;
        ret ((inject_Z (micros t - micros started) / 1000000) / 60)%Q
    | None => ret 0%Q
    end ;;
  ret {| metadata :=
           {| export_timestamp := isoformat stamp;
              session_duration_minutes := duration;
              total_iterations := Z.of_nat (List.length (iteration_history s));
              stages_completed :=
                Z.of_nat (List.length (filter not_initial_idea (stages_data s))) |};
         export_initial_idea := get_default (stages_data s) "initial_idea" "";
         export_final_prompt := final_prompt s;
         refinement_stages := filter not_initial_idea (stages_data s);
         export_iteration_history := iteration_history s |}.

(** *** What the buttons do

    Streamlit runs the body under [if st.button(...)] when the button was
    clicked; a button drawn with [disabled=True] cannot be clicked. *)

(** [render_current_stage], the "Next" button (lines 493–506), drawn
    disabled while the input is blank.  The button nested under the
    suggestion has just been drawn and is not clicked in this run. *)
Definition click_next (stage_name user_input : string) (use_ai : bool)
  : M unit :=
  if truthy_str (strip user_input) then
    ai_suggestion <- process_stage_input stage_name user_input use_ai ;;
    match ai_suggestion with
    | Some suggestion =>
        if truthy_str suggestion && use_ai then
          st_markdown "### 🤖 AI Suggestion:" ;;
          st_info suggestion
        else ret tt
    | None => ret tt
    end ;;
    advance_to_next_stage ;;
    st_rerun
  else ret tt.

(** [render_current_stage], the "Previous" button (lines 487–490), drawn
    disabled at the first stage. *)
Definition click_previous (stage_name : string) : M unit :=
  let stages := keys REFINEMENT_STAGES in
  match index stages stage_name with
  | None => raise (KeyError stage_name)
  | Some O => ret tt
  | Some (S previous_index) =>
      match nth_error stages previous_index with
      | Some previous_stage =>
          update_session (with_current_stage previous_stage) ;;
          st_rerun
      | None => raise (ValueError "list index out of range")
      end
  end.

(** [render_final_results], the "Start New Enhancement" button
    (lines 562–565). *)
Definition click_start_new_enhancement : M unit :=
  update_session (with_active false) ;;
  update_session (with_final_prompt None) ;;
  st_rerun.

(** [render_session_controls], the "Reset Session" button
    (lines 596–610). *)
Definition click_reset_session : M unit :=
  _ <- the_session ;;
  (* Use a simple confirmation with session state *)
  w <- get ;;
  match confirm_reset w with
  | None => modify (with_confirm_reset (Some false))
  | Some _ => ret tt
  end ;;
  w <- get ;;
  match confirm_reset w with
  | Some true =>
      update_session (with_active false) ;;
      update_session (with_stages_data []) ;;
      update_session (with_iteration_history []) ;;
      modify (with_confirm_reset (Some false)) ;;
      st_success "Session reset!" ;;
      st_rerun
  | _ =>
      modify (with_confirm_reset (Some true)) ;;
      st_warning "Click Reset Session again to confirm"
  end.

(** [render_example_prompts], a "Use as Template" button (line 363); the
    section is drawn whether or not a session is active. *)
Definition click_use_as_template (key example_title prompt : string)
  : M unit :=
  start_enhancement_flow prompt ;;
  log_user_action "template_prompt_used"
    [("template", VStr key); ("template_title", VStr example_title)].

(** [render_enhancement_interface], the "Start Enhancement" button
    (lines 403–404), drawn while no session is active and disabled while
    the idea is blank. *)
Definition click_start_enhancement (initial_idea : string) : M unit :=
  if truthy_str (strip initial_idea) then start_enhancement_flow initial_idea
  else ret tt.

End PromptEnhancementService.

(** ** Concrete processes, clients and jobs

    Inputs on which the properties of Part II are evaluated. *)

Module Scenario.
Import Py Runtime.

(** A clock that ticks once a second. *)
Definition ticking : nat -> Instant :=
  fun n => {| micros := Z.of_nat n * 1000000;
              isoformat := "T+" ++ str_of_int (Z.of_nat n) ++ "s" |}.

(** The process right after start-up, before any object is constructed:
    nothing in [st.session_state], no counter file, a writable disk. *)
Definition boot : World :=
  {| enhancement_session := None; client := None; confirm_reset := None;
     enhanced_prompts := None; counters := [];
     counter_file := Missing; write_error := None;
     clock := ticking; clock_reads := 0; requests_sent := [];
     ui := []; log := []; stdout := [] |}.

(** A client whose every call raises (a revoked key, an unreachable
    service). *)
Definition failing_client : Client :=
  fun _ _ => Raise (ServiceError "Incorrect API key provided").

(** A client that answers every request with the same text. *)
Definition echo_client : Client :=
  fun _ _ => Ok "  A cinematic wide shot of a cat riding a skateboard.  ".

(** A session in progress at the last stage, every stage answered. *)
Definition answered : Session :=
  {| active := true;
     current_stage := "polish";
     stages_data :=
       [("initial_idea", "A cat on a skateboard");
        ("concept", "cinematic, park setting, comedic");
        ("mood", "bright and energetic");
        ("subjects", "a ginger cat");
        ("visual", "dynamic camera movement");
        ("polish", "add technical camera terms")];
     iteration_history :=
       [{| timestamp := "T+1s"; action := "session_started"; stage := None;
           data := [("initial_idea", "A cat on a skateboard")] |};
        {| timestamp := "T+3s"; action := "stage_completed";
           stage := Some "concept";
           data := [("user_input", "cinematic, park setting, comedic")] |};
        {| timestamp := "T+4s"; action := "stage_completed";
           stage := Some "mood";
           data := [("user_input", "bright and energetic")] |};
        {| timestamp := "T+5s"; action := "stage_completed";
           stage := Some "subjects";
           data := [("user_input", "a ginger cat")] |};
        {| timestamp := "T+6s"; action := "stage_completed";
           stage := Some "visual";
           data := [("user_input", "dynamic camera movement")] |};
        {| timestamp := "T+7s"; action := "stage_completed";
           stage := Some "polish";
           data := [("user_input", "add technical camera terms")] |}];
     start_time := Some (ticking 2);
     final_prompt := None |}.

(** A session just started. *)
Definition started : Session :=
  {| active := true;
     current_stage := "concept";
     stages_data := [("initial_idea", "A cat on a skateboard")];
     iteration_history :=
       [{| timestamp := "T+1s"; action := "session_started"; stage := None;
           data := [("initial_idea", "A cat on a skateboard")] |}];
     start_time := Some (ticking 2);
     final_prompt := None |}.

(** A finished session. *)
Definition finished : Session :=
  {| active := true;
     current_stage := "polish";
     stages_data := stages_data answered;
     iteration_history :=
       (iteration_history answered ++
        [{| timestamp := "T+8s"; action := "final_prompt_generated";
            stage := None;
            data := [("final_prompt", "A cinematic wide shot of a cat.")] |}])%list;
     start_time := Some (ticking 2);
     final_prompt := Some "A cinematic wide shot of a cat." |}.

(** The process once the module-level [GlobalCounter()] has run. *)
Definition imported : World := exec GlobalCounter.__init__ boot.

(** The process some seconds later, with session [s] in
    [st.session_state] and [c] as the OpenAI client. *)
Definition in_session (s : Session) (c : option Client) : World :=
  with_clock_reads 8 (with_client c (with_session (Some s) imported)).

(** A counter record with every field of the default record except
    [images_generated]. *)
Definition record_without_images : value :=
  VDict [("videos_generated", VInt 3);
         ("chat_messages", VInt 12);
         ("enhanced_prompts", VInt 1);
         ("first_used", VStr "2025-01-01T10:00:00");
         ("last_updated", VStr "2025-01-02T11:30:00");
         ("video_durations",
          VList [VDict [("duration_seconds", VInt 5);
                        ("generated_at", VStr "2025-01-01T10:05:00")];
                 VDict [("duration_seconds", VInt 8);
                        ("generated_at", VStr "2025-01-01T10:09:00")];
                 VDict [("duration_seconds", VInt 5);
                        ("generated_at", VStr "2025-01-02T11:30:00")]]);
         ("videos_5s", VInt 2);
         ("videos_8s", VInt 1);
         ("videos_6s", VInt 0);
         ("videos_7s", VInt 0);
         ("total_video_duration_seconds", VInt 18)].

(** A video job that is still running at each of the first 59 polls and
    is found finished, without error, by the 60th. *)
Definition done_at_last_poll : VideoService.Job :=
  fun k => VideoService.Replies
             {| VideoService.done := (k =? 59)%nat; VideoService.error := None |}.

(** A video job that never finishes. *)
Definition never_done : VideoService.Job :=
  fun _ => VideoService.Replies
             {| VideoService.done := false; VideoService.error := None |}.

(** A video job found finished by the third poll. *)
Definition done_at_third_poll : VideoService.Job :=
  fun k => VideoService.Replies
             {| VideoService.done := (k =? 2)%nat; VideoService.error := None |}.

Definition running : VideoService.Operation :=
  {| VideoService.done := false; VideoService.error := None |}.

End Scenario.

(** ** The vocabulary of the properties *)

Module Spec.
Import Py Runtime.

(** The history of the session, empty when there is no session object. *)
Definition history (w : World) : list HistoryEntry :=
  match enhancement_session w with
  | Some s => iteration_history s
  | None => []
  end.

(** [w'] has the history of [w], possibly with entries added at the end. *)
Definition extends (w w' : World) : Prop :=
  exists added, history w' = (history w ++ added)%list.

(** A computation whose every run relates the state it starts from to the
    state it leaves, whether it returns or raises. *)
Definition respects (R : World -> World -> Prop) {A} (c : M A) : Prop :=
  forall w, R w (exec c w).

(** A computation that only ever adds to the end of the history. *)
Definition append_only {A} (c : M A) : Prop := respects extends c.

(** A computation that leaves the session object alone. *)
Definition same_session (w w' : World) : Prop :=
  enhancement_session w' = enhancement_session w.

Definition session_untouched {A} (c : M A) : Prop := respects same_session c.

(** The session object [init_enhancement_session] creates. *)
Definition idle_session : Session :=
  {| active := false; current_stage := "concept"; stages_data := [];
     iteration_history := []; start_time := None; final_prompt := None |}.

(** The session [start_enhancement_flow] installs. *)
Definition fresh_session (initial_idea : string) (entry_time started : Instant)
  : Session :=
  {| active := true;
     current_stage := "concept";
     stages_data := [("initial_idea", initial_idea)];
     iteration_history :=
       [{| timestamp := isoformat entry_time;
           action := "session_started";
           stage := None;
           data := [("initial_idea", initial_idea)] |}];
     start_time := Some started;
     final_prompt := None |}.

(** Blank input: empty once stripped. *)
Definition blank (s : string) : bool := negb (truthy_str (strip s)).

(** The two enhanced-prompt counters hold numbers (or are not there
    yet), as they do unless the counter file was edited by hand. *)
Definition numeric (v : value) : bool :=
  match as_int v with Some _ => true | None => false end.

Definition enhanced_counts_numeric (w : World) : bool :=
  numeric (match enhanced_prompts w with Some v => v | None => VInt 0 end)
  && numeric (get_default (counters w) "enhanced_prompts" (VInt 0)).

(** A counter file that is missing, unreadable or not JSON. *)
Definition unusable (f : FileState) : bool :=
  match f with
  | Missing | Unreadable _ | Malformed _ => true
  | Holds _ => false
  end.

(** Every pause of the polling loop lasts 20 seconds. *)
Definition paced (e : VideoService.Event) : Prop :=
  match e with VideoService.Slept seconds => seconds = 20%Z | _ => True end.

(** The operations of the session engine. *)
Inductive EngineOp : Type :=
| Start (initial_idea : string)
| SubmitStage (stage_name user_input : string) (use_ai_suggestion : bool)
| Advance
| Synthesize
| ExportSession.

Definition perform (op : EngineOp) : M unit :=
  match op with
  | Start initial_idea =>
      PromptEnhancementService.start_enhancement_flow initial_idea
  | SubmitStage stage_name user_input use_ai_suggestion =>
      _ <- PromptEnhancementService.process_stage_input
             stage_name user_input use_ai_suggestion ;;
      ret tt
  | Advance => PromptEnhancementService.advance_to_next_stage
  | Synthesize => PromptEnhancementService.generate_final_optimized_prompt
  | ExportSession =>
      _ <- PromptEnhancementService.export_session_data ;; ret tt
  end.

End Spec.

(** ** [services/image_service.py]: [ImageService.generate_image] *)

Module ImageService.
Import Py Runtime.

(** The arguments of [client.images.generate]. *)
Record ImageRequest : Type := {
  image_model : string;
  image_prompt : string;
  image_size : string;
  image_quality : string;
  image_n : Z
}.

(** The images endpoint of the client: the URL of the first image of the
    response, or the exception the call raises.  The response carries one
    image with a URL, as it does for the single image the callers ask
    for. *)
Definition ImagesEndpoint : Type := ImageRequest -> outcome string.

(** The request [generate_image] sends. *)
Definition image_request (prompt size quality : string) (n : Z)
  : ImageRequest :=
  {| image_model := "dall-e-3";
     image_prompt := prompt;
     image_size := size;
     image_quality := quality;
     image_n := n |}.

Definition generate_image (images : ImagesEndpoint)
    (prompt size quality : string) (n : Z) : M string :=
  trace_api_call "dalle" "dall-e-3"
    (try_except
       (url <- lift (images (image_request prompt size quality n)) ;;
        (* Increment global image counter *)
        global_image_count <- GlobalCounter.increment_image_count ;;
        log_user_action "image_generated"
          [("model", VStr "dall-e-3");
           ("size", VStr size);
           ("quality", VStr quality);
           ("prompt_length", VInt (len_str prompt));
           ("global_image_count", global_image_count)] ;;
        ret url)
       is_Exception
       (fun e =>
          log_error "image_generation_error" (str_exn e)
            [("model", VStr "dall-e-3");
             ("size", VStr size);
             ("quality", VStr quality);
             ("prompt_length", VInt (len_str prompt))] ;;
          ret ("Error: " ++ str_exn e))).

End ImageService.

(** ** Invariants and compositions *)

Module Invariants.
Import Py Runtime.

(** *** The counter record *)

(** One entry of [video_durations]: a duration and the time it was
    recorded. *)
Definition event (e : Z * string) : value :=
  VDict [("duration_seconds", VInt (fst e)); ("generated_at", VStr (snd e))].

Definition total_seconds (events : list (Z * string)) : Z :=
  fold_right Z.add 0%Z (map fst events).

(** The key of the counter of the videos of one duration. *)
Definition duration_key (duration : Z) : string :=
  "videos_" ++ str_of_int duration ++ "s".

(** The video fields of a counter record agree with a list of events: the
    count is their number, the running total is the sum of their
    durations and the log holds them in order. *)
Definition records (c : dict value) (events : list (Z * string)) : Prop :=
  lookup c "videos_generated" = Some (VInt (Z.of_nat (List.length events)))
  /\ lookup c "total_video_duration_seconds" = Some (VInt (total_seconds events))
  /\ lookup c "video_durations" = Some (VList (map event events)).

(** Every per-duration counter of the record holds a number or is
    absent. *)
Definition duration_counters_numeric (c : dict value) : Prop :=
  forall duration,
    Spec.numeric (get_default c (duration_key duration) (VInt 0)) = true.

(** Counting one video after the other. *)
Fixpoint record_videos (durations : list Z) : M unit :=
  match durations with
  | [] => ret tt
  | duration :: rest =>
      _ <- GlobalCounter.increment_video_count duration ;;
      record_videos rest
  end.

(** The number of entries of a histogram that count a duration. *)
Fixpoint tally (breakdown : list (value * Z)) (duration : Z) : Z :=
  match breakdown with
  | [] => 0
  | (k, n) :: rest =>
      if key_eqb k (VInt duration) then n else tally rest duration
  end%Z.

(** The keys of a histogram are integers. *)
Definition integer_keys (breakdown : list (value * Z)) : Prop :=
  Forall (fun kv => exists z, fst kv = VInt z) breakdown.

(** How often a duration occurs among the events. *)
Definition occurrences (events : list (Z * string)) (duration : Z) : Z :=
  Z.of_nat (count_occ Z.eq_dec (map fst events) duration).

(** The four keys [_load_counters] checks. *)
Definition ensured (k : string) : bool :=
  String.eqb k "enhanced_prompts" || String.eqb k "videos_6s"
  || String.eqb k "videos_7s" || String.eqb k "total_video_duration_seconds".

(** *** The wait for a video *)

(** The replies to the [count] polls sent from poll number [first] on
    all say that the operation is still running, without error. *)
Definition still_running (job : VideoService.Job) (first count : nat) : Prop :=
  forall i, (i < count)%nat ->
    exists operation,
      job (first + i)%nat = VideoService.Replies operation
      /\ VideoService.done operation = false
      /\ VideoService.error operation = None.

(** *** The session *)

Definition stages : list string :=
  keys PromptEnhancementService.REFINEMENT_STAGES.

(** The current stage of the session, if there is a session, is one of
    the refinement stages. *)
Definition stage_valid (w : World) : Prop :=
  match enhancement_session w with
  | Some s => In (current_stage s) stages
  | None => True
  end.

Definition keeps_stage_valid (w w' : World) : Prop :=
  stage_valid w -> stage_valid w'.

(** The client and the requests sent so far are the same. *)
Definition same_client (w w' : World) : Prop :=
  client w' = client w /\ requests_sent w' = requests_sent w.

(** What the user can click in the enhancement interface. *)
Inductive Click : Type :=
| StartEnhancement (initial_idea : string)
| UseAsTemplate (key example_title prompt : string)
| Next (stage_name user_input : string) (use_ai : bool)
| Previous (stage_name : string)
| StartNewEnhancement
| ResetSession.

Definition handle (click : Click) : M unit :=
  match click with
  | StartEnhancement initial_idea =>
      PromptEnhancementService.click_start_enhancement initial_idea
  | UseAsTemplate key example_title prompt =>
      PromptEnhancementService.click_use_as_template key example_title prompt
  | Next stage_name user_input use_ai =>
      PromptEnhancementService.click_next stage_name user_input use_ai
  | Previous stage_name =>
      PromptEnhancementService.click_previous stage_name
  | StartNewEnhancement =>
      PromptEnhancementService.click_start_new_enhancement
  | ResetSession => PromptEnhancementService.click_reset_session
  end.

(** One script run per click: the state a run leaves, whether it ends
    normally or by a rerun, is the state the next run starts from. *)
Fixpoint play (clicks : list Click) (w : World) : World :=
  match clicks with
  | [] => w
  | click :: rest => play rest (exec (handle click) w)
  end.

End Invariants.

(** ** More concrete inputs *)

Module Cases.
Import Py Runtime.

(** A process whose counter record logs a 5-second and an 8-second video
    but whose stored total has drifted to 99 seconds. *)
Definition drifted : World :=
  with_counters
    [("videos_generated", VInt 2);
     ("video_durations",
      VList [Invariants.event (5%Z, "2025-01-01T10:05:00");
             Invariants.event (8%Z, "2025-01-01T10:09:00")]);
     ("total_video_duration_seconds", VInt 99)]
    Scenario.boot.

(** The same process with a disk that refuses writes. *)
Definition read_only_disk (w : World) : World :=
  {| enhancement_session := enhancement_session w; client := client w;
     confirm_reset := confirm_reset w;
     enhanced_prompts := enhanced_prompts w; counters := counters w;
     counter_file := counter_file w;
     write_error := Some "[Errno 30] Read-only file system";
     clock := clock w; clock_reads := clock_reads w;
     requests_sent := requests_sent w; ui := ui w; log := log w;
     stdout := stdout w |}.

(** An images endpoint that returns a URL, and one that raises. *)
Definition image_ok : ImageService.ImagesEndpoint :=
  fun _ => Ok "https://images.example/cat.png".

Definition image_fails : ImageService.ImagesEndpoint :=
  fun _ => Raise (ServiceError "Rate limit reached").

(** A video job whose second status poll raises. *)
Definition raises_at_second_poll : VideoService.Job :=
  fun k => if (k =? 1)%nat then VideoService.Fails "503 Service Unavailable"
           else VideoService.Replies Scenario.running.

(** A client that returns a final prompt. *)
Definition helpful_client : Client :=
  fun _ _ => Ok "  A cinematic wide shot of a cat riding a skateboard.  ".

End Cases.

(* ===================================================================== *)
(** * Part II — properties                                                *)
(* ===================================================================== *)

(** ** The usage counters *)

Module LedgerProps.
Import Py Runtime GlobalCounter Spec.

(** The record [_get_default_counters] builds from two clock readings. *)
Lemma default_counters_run (w : World) :
  run _get_default_counters w =
  (Ok [("videos_generated", VInt 0);
       ("images_generated", VInt 0);
       ("chat_messages", VInt 0);
       ("enhanced_prompts", VInt 0);
       ("first_used", VStr (isoformat (clock w (clock_reads w))));
       ("last_updated", VStr (isoformat (clock w (S (clock_reads w)))));
       ("video_durations", VList []);
       ("videos_5s", VInt 0);
       ("videos_8s", VInt 0);
       ("videos_6s", VInt 0);
       ("videos_7s", VInt 0);
       ("total_video_duration_seconds", VInt 0)],
   with_clock_reads (S (S (clock_reads w))) w).
Proof. destruct w; reflexivity. Qed.

(** Loading from an unusable file does not raise and yields the default
    record. *)
Lemma load_unusable_gives_defaults (w : World) :
  unusable (counter_file w) = true ->
  run _load_counters w = run _get_default_counters w.
Proof.
  destruct w as [sess cl cr ep cnt cf we clk reads reqs u lg out].
  destruct cf; cbn [unusable counter_file]; intros H;
    try discriminate; reflexivity.
Qed.

(** Reading a dict after an assignment. *)
Lemma lookup_assign {V} (d : dict V) (k k' : string) (v : V) :
  lookup (assign d k v) k' = if String.eqb k k' then Some v else lookup d k'.
Proof.
  induction d as [|[k0 v0] d IH]; cbn; [reflexivity|].
  destruct (String.eqb k0 k) eqn:E0; cbn.
  - apply String.eqb_eq in E0; subst k0.
    destruct (String.eqb k k'); reflexivity.
  - rewrite IH.
    destruct (String.eqb k0 k') eqn:E1; [|reflexivity].
    destruct (String.eqb k k') eqn:E2; [|reflexivity].
    apply String.eqb_eq in E1, E2; subst.
    rewrite String.eqb_refl in E0; discriminate.
Qed.

(** [ensure_key] adds its key and removes none. *)
Lemma ensure_key_adds (k : string) (d : dict value) :
  contains (ensure_key k d) k = true.
Proof.
  unfold ensure_key. destruct (contains d k) eqn:Hk; cbn [negb]; [assumption|].
  unfold contains. now rewrite lookup_assign, String.eqb_refl.
Qed.

Lemma ensure_key_present (k k' : string) (d : dict value) :
  contains d k' = true -> contains (ensure_key k d) k' = true.
Proof.
  unfold ensure_key. destruct (contains d k); cbn [negb]; [easy|].
  unfold contains. rewrite lookup_assign.
  now destruct (String.eqb k k').
Qed.

(** [ensure_key] leaves every other key as it found it: a key that is
    absent and is not the one ensured stays absent. *)
Lemma ensure_key_other (k k' : string) (d : dict value) :
  String.eqb k k' = false ->
  lookup (ensure_key k d) k' = lookup d k'.
Proof.
  intros H. unfold ensure_key.
  destruct (contains d k); cbn [negb]; [reflexivity|].
  now rewrite lookup_assign, H.
Qed.

(** C7. Starting from the all-zero default record, counting a 5-second
    and then an 8-second video and reading the statistics gives
    [videos_5s = 1], [videos_8s = 1], [total_videos = 2], an average
    duration of 6.5 seconds, a total duration of 13 seconds and the
    histogram 5 -> 1, 8 -> 1; this holds whatever the clock shows and
    whether or not the counter file can be written. *)
Theorem statistics_after_5s_and_8s_videos (w : World) :
  exists s,
    result (defaults <- _get_default_counters ;;
            modify (with_counters defaults) ;;
            increment_video_count 5 ;;
            increment_video_count 8 ;;
            get_statistics) w = Ok s
    /\ videos_5s s = VInt 1
    /\ videos_8s s = VInt 1
    /\ total_videos s = VInt 2
    /\ (average_video_duration_seconds s == 13 # 2)%Q
    /\ total_video_duration_seconds s = VInt 13
    /\ video_count_by_duration s = [(VInt 5, 1%Z); (VInt 8, 1%Z)].
Proof.
  destruct w as [sess cl cr ep cnt cf we clk reads reqs u lg out].
  destruct we as [msg|]; vm_compute;
    (eexists; split; [reflexivity|]); repeat split; reflexivity.
Qed.

(** C8. A record that has every field but [images_generated] is loaded as
    it is — the key is not added — and the next image count raises
    [KeyError] instead of succeeding. *)
Theorem load_keeps_images_generated_missing :
  let w := with_counter_file (Holds Scenario.record_without_images)
             Scenario.boot in
  result __init__ w = Ok tt
  /\ lookup (counters (exec __init__ w)) "images_generated" = None
  /\ result (__init__ ;; increment_image_count) w
     = Raise (KeyError "images_generated").
Proof. vm_compute. repeat split; reflexivity. Qed.

End LedgerProps.

(** ** The wait for a video *)

Module VideoProps.
Import VideoService Spec.
Local Open Scope nat_scope.

Lemma polls_app (a b : list Event) : polls (a ++ b) = polls a + polls b.
Proof. unfold polls. now rewrite filter_app, length_app. Qed.

(** The loop is left at once: nothing is added to the trace. *)
Ltac stays_put :=
  exists []; rewrite app_nil_r;
  split; [reflexivity|];
  split; [apply Nat.le_0_l|];
  split; [constructor|];
  split; [change (polls []) with 0; lia|auto].

(** What one run of the loop adds to the trace, by induction on the fuel:
    it extends the trace, polls at most [max_polls - poll_count] times,
    pauses 20 seconds before each poll, and when it falls out of the
    [while] the counter has grown by the number of polls and either the
    operation is done or the counter has reached [max_polls]. *)
Lemma poll_loop_spec (fuel : nat) (job : Job) :
  forall operation poll_count trace exit trace',
    poll_loop fuel job operation poll_count trace = Some (exit, trace') ->
    exists added,
      trace' = (trace ++ added)%list
      /\ polls added <= max_polls - poll_count
      /\ Forall paced added
      /\ match exit with
         | Fell operation' poll_count' =>
             poll_count' = poll_count + polls added
             /\ (done operation' = true \/ max_polls <= poll_count')
         | Returned _ => True
         end.
Proof.
  induction fuel as [|fuel IH]; intros operation poll_count trace exit trace' H;
    cbn [poll_loop] in H.
  - destruct (done operation) eqn:Hd; cbn [negb andb] in H.
    + injection H as <- <-. stays_put.
    + destruct (Nat.ltb_spec poll_count max_polls) as [Hlt|Hge]; [discriminate|].
      injection H as <- <-. stays_put.
  - destruct (done operation) eqn:Hd; cbn [negb andb] in H.
    + injection H as <- <-. stays_put.
    + destruct (Nat.ltb_spec poll_count max_polls) as [Hlt|Hge];
        [|injection H as <- <-; stays_put].
      destruct (job poll_count) as [operation'|poll_error].
      * destruct (error operation') as [err|].
        -- injection H as <- <-.
           exists [Slept 20; Polled;
                   LoggedEvent "video_generation_polling" (S poll_count);
                   LoggedError "video_generation_operation_error"].
           split; [now rewrite <- !app_assoc|].
           split; [change (1 <= max_polls - poll_count); lia|].
           split; [repeat constructor|exact I].
        -- apply IH in H. destruct H as (added & -> & Hn & Hp & Hx).
           exists ([Slept 20; Polled;
                    LoggedEvent "video_generation_polling" (S poll_count)]
                   ++ added)%list.
           split; [now rewrite <- !app_assoc|].
           rewrite polls_app.
           change (polls [Slept 20; Polled; LoggedEvent _ _]) with 1.
           split; [lia|].
           split; [repeat constructor; assumption|].
           destruct exit; [exact I|]. destruct Hx as [-> Hx].
           split; [lia|assumption].
      * injection H as <- <-.
        exists [Slept 20; Polled; LoggedError "video_generation_polling_error"].
        split; [now rewrite <- !app_assoc|].
        split; [change (1 <= max_polls - poll_count); lia|].
        split; [repeat constructor|exact I].
Qed.

(** With [max_polls - poll_count] units of fuel the loop finishes. *)
Lemma poll_loop_total (fuel : nat) (job : Job) :
  forall operation poll_count trace,
    max_polls - poll_count <= fuel ->
    exists r, poll_loop fuel job operation poll_count trace = Some r.
Proof.
  induction fuel as [|fuel IH]; intros operation poll_count trace Hf;
    cbn [poll_loop].
  - destruct (done operation); cbn [negb andb]; [eauto|].
    destruct (Nat.ltb_spec poll_count max_polls); [lia|eauto].
  - destruct (done operation); cbn [negb andb]; [eauto|].
    destruct (Nat.ltb_spec poll_count max_polls); [|eauto].
    destruct (job poll_count) as [operation'|]; [|eauto].
    destruct (error operation'); [eauto|].
    apply IH. lia.
Qed.

(** The wait always ends. *)
Lemma generate_video_wait_total (job : Job) (operation : Operation) :
  exists r, generate_video_wait job operation = Some r.
Proof.
  unfold generate_video_wait.
  destruct (poll_loop_total max_polls job operation 0 []) as [[exit trace] ->];
    [lia|].
  destruct exit; [eauto|].
  destruct (max_polls <=? poll_count)%nat; [eauto|].
  destruct (negb (done operation0)); eauto.
Qed.

(** It polls at most 60 times, always 20 seconds after the previous step. *)
Lemma generate_video_wait_bounded (job : Job) (operation : Operation)
    (exit : Exit) (trace : list Event) :
  generate_video_wait job operation = Some (exit, trace) ->
  polls trace <= 60 /\ Forall paced trace.
Proof.
  unfold generate_video_wait.
  destruct (poll_loop max_polls job operation 0 []) as [[lexit ltrace]|] eqn:E;
    [|discriminate].
  apply poll_loop_spec in E. destruct E as (added & -> & Hn & Hp & Hx).
  cbn [app] in *. change max_polls with 60 in *.
  destruct lexit as [message|operation' poll_count].
  - intros H; injection H as <- <-. split; [lia|assumption].
  - destruct (60 <=? poll_count)%nat.
    + intros H; injection H as <- <-. rewrite polls_app. cbn.
      split; [lia|]. apply Forall_app. split; [assumption|repeat constructor].
    + destruct (negb (done operation')); intros H; injection H as <- <-;
        (split; [lia|assumption]).
Qed.

(** The wait hands the operation on only when it is done and fewer than
    60 polls were needed. *)
Lemma generate_video_wait_proceeds (job : Job) (operation : Operation)
    (operation' : Operation) (poll_count : nat) (trace : list Event) :
  generate_video_wait job operation
    = Some (Proceed operation' poll_count, trace) ->
  done operation' = true /\ poll_count < 60 /\ polls trace = poll_count.
Proof.
  unfold generate_video_wait.
  destruct (poll_loop max_polls job operation 0 []) as [[lexit ltrace]|] eqn:E;
    [|discriminate].
  apply poll_loop_spec in E. destruct E as (added & -> & Hn & Hp & Hx).
  cbn [app] in *. change max_polls with 60 in *.
  destruct lexit as [message|op pc]; [discriminate|].
  destruct (Nat.leb_spec 60 pc) as [Hle|Hlt]; [discriminate|].
  destruct (done op) eqn:Hd; cbn [negb]; [|discriminate].
  intros H; injection H as <- <- <-.
  destruct Hx as [Hpc _]. rewrite Nat.add_0_l in Hpc.
  split; [assumption|]. split; [assumption|congruence].
Qed.

(** A job found finished by the third poll is handed on after three
    polls. *)
Example finished_at_third_poll_proceeds :
  exists trace,
    generate_video_wait Scenario.done_at_third_poll Scenario.running
    = Some (Proceed {| done := true; error := None |} 3, trace)
    /\ polls trace = 3.
Proof. eexists. split; reflexivity. Qed.

(** A job that never finishes is reported as timed out after 60 polls. *)
Example never_finished_times_out :
  exists trace,
    generate_video_wait Scenario.never_done Scenario.running
    = Some (Return timeout_message, trace)
    /\ polls trace = 60.
Proof. eexists. split; vm_compute; reflexivity. Qed.

(** C9. A job that the 60th poll finds finished, without error, is
    reported as timed out: the check after the loop looks at the poll
    counter only, so completing at the last allowed poll counts as a
    timeout.  The 60 polls themselves are as claimed. *)
Theorem completion_at_last_poll_reported_as_timeout :
  exists trace,
    generate_video_wait Scenario.done_at_last_poll Scenario.running
    = Some (Return "Error: Video generation timed out after 20 minutes", trace)
    /\ polls trace = 60
    /\ Scenario.done_at_last_poll 59
       = Replies {| done := true; error := None |}.
Proof. eexists. repeat split; vm_compute; reflexivity. Qed.

End VideoProps.

(** ** The enhancement session *)

Module SessionProps.
Import Py Runtime PromptEnhancementService Spec.
Local Open Scope nat_scope.

(** *** Running sequenced code *)

Lemma run_bind {A B} (c : M A) (k : A -> M B) (w : World) :
  run (bind c k) w =
  match run c w with
  | (Ok a, w') => run (k a) w'
  | (Raise e, w') => (Raise e, w')
  end.
Proof. reflexivity. Qed.

Lemma exec_bind {A B} (c : M A) (k : A -> M B) (w : World) :
  exec (bind c k) w =
  match run c w with
  | (Ok a, w') => exec (k a) w'
  | (Raise e, w') => w'
  end.
Proof. unfold exec. rewrite run_bind. now destruct (run c w) as [[a|e] w']. Qed.

Lemma exec_try_except {A} (body : M A) (filter : exn -> bool)
    (handler : exn -> M A) (w : World) :
  exec (try_except body filter handler) w =
  match run body w with
  | (Ok a, w') => w'
  | (Raise e, w') => if filter e then exec (handler e) w' else w'
  end.
Proof.
  unfold exec, try_except. cbn.
  destruct (run body w) as [[a|e] w']; [reflexivity|].
  now destruct (filter e).
Qed.

(** *** Relations every step of a computation respects *)

Section Respects.

Variable R : World -> World -> Prop.
Hypothesis R_refl : forall w, R w w.
Hypothesis R_trans : forall w1 w2 w3, R w1 w2 -> R w2 w3 -> R w1 w3.

Lemma respects_ret {A} (a : A) : respects R (ret a).
Proof. intros w. apply R_refl. Qed.

Lemma respects_raise {A} (e : exn) : respects R (raise e : M A).
Proof. intros w. apply R_refl. Qed.

Lemma respects_get : respects R (get : M World).
Proof. intros w. apply R_refl. Qed.

Lemma respects_lift {A} (o : outcome A) : respects R (lift o).
Proof. intros w. destruct o; apply R_refl. Qed.

Lemma respects_bind {A B} (c : M A) (k : A -> M B) :
  respects R c -> (forall a, respects R (k a)) -> respects R (bind c k).
Proof.
  intros Hc Hk w. rewrite exec_bind.
  specialize (Hc w). unfold exec in Hc.
  destruct (run c w) as [[a|e] w']; cbn [snd] in Hc; [|assumption].
  eapply R_trans; [exact Hc|apply Hk].
Qed.

Lemma respects_try_except {A} (body : M A) (filter : exn -> bool)
    (handler : exn -> M A) :
  respects R body -> (forall e, respects R (handler e)) ->
  respects R (try_except body filter handler).
Proof.
  intros Hb Hh w. rewrite exec_try_except.
  specialize (Hb w). unfold exec in Hb.
  destruct (run body w) as [[a|e] w']; cbn [snd] in Hb; [assumption|].
  destruct (filter e); [|assumption].
  eapply R_trans; [exact Hb|apply Hh].
Qed.

End Respects.

(** Peel one construct of the monad off a [respects] goal, given that
    the relation is reflexive and transitive. *)
Ltac respects_step refl trans :=
  match goal with
  | |- respects _ (bind _ _) => apply (respects_bind _ trans); [|intros ?]
  | |- respects _ (try_except _ _ _) =>
      apply (respects_try_except _ trans); [|intros ?]
  | |- respects _ (ret _) => apply (respects_ret _ refl)
  | |- respects _ (raise _) => apply (respects_raise _ refl)
  | |- respects _ st_rerun => apply (respects_raise _ refl)
  | |- respects _ (lift _) => apply (respects_lift _ refl)
  | |- respects _ get => apply (respects_get _ refl)
  | |- respects _ (match ?x with _ => _ end) => destruct x
  | |- respects _ (if ?x then _ else _) => destruct x
  end.

(** *** Code that leaves the session object alone *)

Lemma same_session_refl (w : World) : same_session w w.
Proof. reflexivity. Qed.

Lemma same_session_trans (w1 w2 w3 : World) :
  same_session w1 w2 -> same_session w2 w3 -> same_session w1 w3.
Proof. unfold same_session. congruence. Qed.

Lemma untouched_modify (f : World -> World) :
  (forall w, enhancement_session (f w) = enhancement_session w) ->
  session_untouched (modify f).
Proof. intros H w. apply H. Qed.

Lemma untouched_now : session_untouched now.
Proof. intros w. reflexivity. Qed.

Lemma untouched_emit (lvl act : string) (d : dict value) :
  session_untouched (emit lvl act d).
Proof. intros w. reflexivity. Qed.

Ltac untouched_leaf :=
  match goal with
  | |- respects _ now => apply untouched_now
  | |- respects _ (emit _ _ _) => apply untouched_emit
  | |- respects _ (modify _) => apply untouched_modify; reflexivity
  end.

Ltac untouched :=
  unfold session_untouched;
  repeat first
    [ respects_step same_session_refl same_session_trans | untouched_leaf ].

Lemma untouched_create (c : Client) (request : ChatRequest) :
  session_untouched (create c request).
Proof. unfold create. untouched. Qed.

Lemma untouched_the_session : session_untouched the_session.
Proof. unfold the_session. untouched. Qed.

Lemma untouched_save_counters : session_untouched GlobalCounter._save_counters.
Proof.
  unfold GlobalCounter._save_counters, GlobalCounter.counters_setitem,
    GlobalCounter.write_json, print.
  untouched.
Qed.

Lemma untouched_increment_enhanced_prompt_count :
  session_untouched GlobalCounter.increment_enhanced_prompt_count.
Proof.
  unfold GlobalCounter.increment_enhanced_prompt_count,
    GlobalCounter.counters_get, GlobalCounter.counters_setitem,
    GlobalCounter.counters_getitem.
  untouched. apply untouched_save_counters.
Qed.

Lemma untouched_enhanced_count_with_fallback :
  session_untouched enhanced_count_with_fallback.
Proof.
  unfold enhanced_count_with_fallback, log_error.
  untouched. apply untouched_increment_enhanced_prompt_count.
Qed.

(** Exporting leaves the session object as it is. *)
Lemma export_session_data_pure : session_untouched export_session_data.
Proof.
  unfold export_session_data. untouched. apply untouched_the_session.
Qed.

(** *** Code that only adds to the history *)

Lemma extends_refl (w : World) : extends w w.
Proof. exists []. now rewrite app_nil_r. Qed.

Lemma extends_trans (w1 w2 w3 : World) :
  extends w1 w2 -> extends w2 w3 -> extends w1 w3.
Proof.
  intros [a Ha] [b Hb]. exists (a ++ b)%list.
  now rewrite Hb, Ha, app_assoc.
Qed.

Lemma untouched_append_only {A} (c : M A) :
  session_untouched c -> append_only c.
Proof.
  intros H w. exists []. unfold history. now rewrite (H w), app_nil_r.
Qed.

Lemma append_only_history_append (entry : HistoryEntry) :
  append_only (history_append entry).
Proof.
  intros w. unfold exec, history_append, update_session, the_session, extends,
    history. cbn.
  destruct (enhancement_session w) as [s|] eqn:E; cbn; rewrite ?E.
  - now exists [entry].
  - now exists [].
Qed.

(** Assigning a session field other than the history. *)
Lemma append_only_update_session (f : Session -> Session) :
  (forall s, iteration_history (f s) = iteration_history s) ->
  append_only (update_session f).
Proof.
  intros H w. unfold exec, update_session, the_session, extends, history. cbn.
  destruct (enhancement_session w) as [s|] eqn:E; cbn; rewrite ?E.
  - exists []. now rewrite H, app_nil_r.
  - now exists [].
Qed.

Ltac append_only_leaf :=
  match goal with
  | |- respects _ (history_append _) => apply append_only_history_append
  | |- respects _ (update_session _) =>
      apply append_only_update_session; reflexivity
  | |- respects _ _ =>
      apply untouched_append_only; unfold session_untouched; untouched_leaf
  end.

Ltac append_only :=
  unfold append_only;
  repeat first
    [ respects_step extends_refl extends_trans | append_only_leaf ].

Lemma append_only_get_enhancement_suggestion (c : Client)
    (stage_name user_input : string) (context : dict string) :
  append_only (get_enhancement_suggestion c stage_name user_input context).
Proof.
  apply untouched_append_only.
  unfold get_enhancement_suggestion, trace_api_call, log_api_call, log_error.
  untouched. apply untouched_create.
Qed.

Lemma append_only_generate_final_prompt (c : Client) (d : dict string) :
  append_only (generate_final_prompt c d).
Proof.
  apply untouched_append_only.
  unfold generate_final_prompt, trace_api_call, log_api_call, log_error.
  untouched. apply untouched_create.
Qed.

Lemma append_only_the_session : append_only the_session.
Proof. apply untouched_append_only, untouched_the_session. Qed.

Lemma append_only_process_stage_input (stage_name user_input : string)
    (use_ai_suggestion : bool) :
  append_only (process_stage_input stage_name user_input use_ai_suggestion).
Proof.
  unfold process_stage_input, log_user_action.
  append_only; try apply append_only_the_session.
  apply append_only_get_enhancement_suggestion.
Qed.

Lemma append_only_generate_final_optimized_prompt :
  append_only generate_final_optimized_prompt.
Proof.
  unfold generate_final_optimized_prompt, log_user_action, st_error.
  append_only; try apply append_only_the_session.
  apply append_only_generate_final_prompt.
Qed.

Lemma append_only_advance_to_next_stage : append_only advance_to_next_stage.
Proof.
  unfold advance_to_next_stage, log_user_action.
  append_only; try apply append_only_the_session.
  apply append_only_generate_final_optimized_prompt.
Qed.

Lemma append_only_export_session_data : append_only export_session_data.
Proof. apply untouched_append_only, export_session_data_pure. Qed.

(** *** Reset and restart *)

(** Evaluate a method on a process given field by field. *)
Ltac evaluate :=
  unfold result, exec;
  cbn -[suggestion_request final_prompt_request REFINEMENT_STAGES json_dumps
        len_str len_dict str_exn strip String.append assign lookup filter].

(** The first click on "Reset Session" only asks for confirmation. *)
Lemma reset_asks_for_confirmation (w : World) (s : Session) :
  enhancement_session w = Some s ->
  confirm_reset w <> Some true ->
  result click_reset_session w = Ok tt
  /\ enhancement_session (exec click_reset_session w) = Some s
  /\ confirm_reset (exec click_reset_session w) = Some true.
Proof.
  destruct w as [sess cl cr ep cnt cf we clk reads reqs u lg out].
  cbn [enhancement_session confirm_reset]. intros -> Hcr.
  destruct cr as [[|]|]; [congruence| |]; evaluate; auto.
Qed.

(** A confirmed "Reset Session". *)
Lemma confirmed_reset_session (w : World) (s : Session) :
  enhancement_session w = Some s ->
  confirm_reset w = Some true ->
  enhancement_session (exec click_reset_session w)
  = Some {| active := false;
            current_stage := current_stage s;
            stages_data := [];
            iteration_history := [];
            start_time := start_time s;
            final_prompt := final_prompt s |}.
Proof.
  destruct w as [sess cl cr ep cnt cf we clk reads reqs u lg out].
  cbn [enhancement_session confirm_reset]. intros -> ->.
  reflexivity.
Qed.

(** C5. A confirmed "Reset Session" sets [active] to false and empties
    [stages_data] and [iteration_history]; [current_stage], [start_time]
    and [final_prompt] keep the values they had. *)
Theorem reset_clears_data_and_keeps_the_rest (w : World) (s : Session) :
  enhancement_session w = Some s ->
  confirm_reset w = Some true ->
  result click_reset_session w = Raise RerunException
  /\ enhancement_session (exec click_reset_session w)
     = Some {| active := false;
               current_stage := current_stage s;
               stages_data := [];
               iteration_history := [];
               start_time := start_time s;
               final_prompt := final_prompt s |}.
Proof.
  intros Hs Hc. split; [|now apply confirmed_reset_session].
  destruct w as [sess cl cr ep cnt cf we clk reads reqs u lg out].
  cbn [enhancement_session confirm_reset] in Hs, Hc. now subst.
Qed.

Lemma reset_clears_data_and_keeps_the_rest_witness :
  let w := with_confirm_reset (Some true)
             (Scenario.in_session Scenario.finished None) in
  enhancement_session w = Some Scenario.finished
  /\ confirm_reset w = Some true
  /\ enhancement_session (exec click_reset_session w)
     = Some {| active := false;
               current_stage := "polish";
               stages_data := [];
               iteration_history := [];
               start_time := Some (Scenario.ticking 2);
               final_prompt := Some "A cinematic wide shot of a cat." |}.
Proof.
  intros w. split; [reflexivity|]. split; [reflexivity|].
  exact (proj2 (reset_clears_data_and_keeps_the_rest w Scenario.finished
                  eq_refl eq_refl)).
Defined.

(** "Start New Enhancement" changes two fields of the session. *)
Lemma start_new_enhancement_run (w : World) (s : Session) :
  enhancement_session w = Some s ->
  run click_start_new_enhancement w
  = (Raise RerunException,
     with_session (Some (with_final_prompt None (with_active false s))) w).
Proof.
  destruct w as [sess cl cr ep cnt cf we clk reads reqs u lg out].
  cbn [enhancement_session]. intros ->. reflexivity.
Qed.

(** What an export shows of a session. *)
Lemma export_session_data_shows (w : World) (s : Session) :
  enhancement_session w = Some s ->
  exists x,
    result export_session_data w = Ok x
    /\ refinement_stages x = filter not_initial_idea (stages_data s)
    /\ export_iteration_history x = iteration_history s
    /\ export_final_prompt x = final_prompt s.
Proof.
  destruct w as [sess cl cr ep cnt cf we clk reads reqs u lg out].
  cbn [enhancement_session]. intros ->.
  evaluate. destruct (start_time s); evaluate; eexists; repeat split.
Qed.

(** *** Starting a session *)

Lemma init_enhancement_session_run (w : World) :
  run init_enhancement_session w
  = (Ok tt, match enhancement_session w with
            | Some _ => w
            | None => with_session (Some idle_session) w
            end).
Proof.
  destruct w as [sess cl cr ep cnt cf we clk reads reqs u lg out].
  now destruct sess.
Qed.

Lemma init_enhancement_session_ensures (w : World) :
  exists s, enhancement_session (exec init_enhancement_session w) = Some s
            /\ iteration_history s = history w.
Proof.
  unfold exec, history. rewrite init_enhancement_session_run. cbn [snd].
  destruct (enhancement_session w) as [s|] eqn:E.
  - exists s. now rewrite E.
  - exists idle_session. now destruct w.
Qed.

(** With numeric counters the count at the top of
    [start_enhancement_flow] returns. *)
Lemma enhanced_count_returns (w : World) :
  enhanced_counts_numeric w = true ->
  exists v, result enhanced_count_with_fallback w = Ok v.
Proof.
  destruct w as [sess cl cr ep cnt cf we clk reads reqs u lg out].
  unfold enhanced_counts_numeric, numeric, get_default.
  cbn [enhanced_prompts counters]. intros H.
  apply andb_prop in H. destruct H as [Hs Hc].
  unfold result, enhanced_count_with_fallback,
    GlobalCounter.increment_enhanced_prompt_count.
  cbn -[lookup assign as_int String.append].
  unfold add_int.
  destruct (as_int match ep with Some v => v | None => VInt 0 end);
    [|discriminate].
  cbn -[lookup assign as_int String.append].
  unfold get_default.
  destruct (as_int match lookup cnt "enhanced_prompts" with
                   | Some v => v | None => VInt 0 end); [|discriminate].
  destruct we as [msg|];
    cbn -[lookup assign as_int String.append];
    rewrite !LedgerProps.lookup_assign; cbn; eauto.
Qed.

(** The two ways [start_enhancement_flow] can end: the count raises and
    nothing else happens, or the fresh session is installed and the
    script is rerun. *)
Lemma start_enhancement_flow_run (initial_idea : string) (w : World) :
  match run enhanced_count_with_fallback (exec init_enhancement_session w) with
  | (Ok _, w2) =>
      result (start_enhancement_flow initial_idea) w = Raise RerunException
      /\ enhancement_session (exec (start_enhancement_flow initial_idea) w)
         = Some (fresh_session initial_idea
                   (clock w2 (clock_reads w2))
                   (clock w2 (S (clock_reads w2))))
  | (Raise e, w2) =>
      run (start_enhancement_flow initial_idea) w = (Raise e, w2)
  end.
Proof.
  destruct (init_enhancement_session_ensures w) as (s1 & Hs1 & _).
  pose proof (untouched_enhanced_count_with_fallback
                (exec init_enhancement_session w)) as Hsame.
  unfold same_session in Hsame. rewrite Hs1 in Hsame. clear Hs1.
  unfold result, exec, start_enhancement_flow in *.
  rewrite run_bind, init_enhancement_session_run in *.
  cbn [snd] in *. cbv iota beta. rewrite run_bind.
  destruct (run enhanced_count_with_fallback _) as [[v|e] w2]; [|reflexivity].
  cbn [snd] in Hsame.
  destruct w2 as [sess cl cr ep cnt cf we clk reads reqs u lg out].
  cbn [enhancement_session] in Hsame. subst sess.
  split; reflexivity.
Qed.

(** C2. For every non-blank idea, [start_enhancement_flow] leaves an
    active session at the first stage, ["concept"], whose [stages_data]
    holds the single key [initial_idea] mapped to the idea, whose history
    is one [session_started] entry, with no final prompt and with the
    start time set; the script run then ends with a rerun. *)
Theorem start_installs_fresh_session (w : World) (initial_idea : string) :
  blank initial_idea = false ->
  enhanced_counts_numeric w = true ->
  let w' := exec (start_enhancement_flow initial_idea) w in
  result (start_enhancement_flow initial_idea) w = Raise RerunException
  /\ exists entry started,
       enhancement_session w'
       = Some {| active := true;
                 current_stage := "concept";
                 stages_data := [("initial_idea", initial_idea)];
                 iteration_history := [entry];
                 start_time := Some started;
                 final_prompt := None |}
       /\ action entry = "session_started"
       /\ data entry = [("initial_idea", initial_idea)]
       /\ nth_error (keys REFINEMENT_STAGES) 0 = Some "concept".
Proof.
  intros _ Hnum w'. subst w'.
  pose proof (start_enhancement_flow_run initial_idea w) as Hrun.
  assert (Hnum1 : enhanced_counts_numeric (exec init_enhancement_session w)
                  = true).
  { unfold exec. rewrite init_enhancement_session_run. cbn [snd].
    destruct (enhancement_session w); [assumption|].
    now destruct w. }
  destruct (enhanced_count_returns _ Hnum1) as [v Hv].
  unfold result in Hv.
  destruct (run enhanced_count_with_fallback _) as [[v'|e] w2];
    cbn [fst] in Hv; [|discriminate].
  destruct Hrun as [Hres Hsess]. split; [assumption|].
  eexists _, _. split; [exact Hsess|]. repeat split.
Qed.

Lemma start_installs_fresh_session_witness :
  blank "A cat on a skateboard" = false
  /\ enhanced_counts_numeric Scenario.boot = true
  /\ result (start_enhancement_flow "A cat on a skateboard") Scenario.boot
     = Raise RerunException.
Proof.
  split; [reflexivity|]. split; [reflexivity|].
  exact (proj1 (start_installs_fresh_session Scenario.boot
                  "A cat on a skateboard" eq_refl eq_refl)).
Defined.

(** *** Submitting a stage *)

(** C3, as the claim states it, fails: nothing raises a validation error.
    The "Next" button returns normally on three spaces, and
    [process_stage_input] checks nothing: given the same input it returns
    normally, stores it as the answer of the stage and appends a history
    entry. *)
Lemma process_stage_input_accepts_blank_input :
  let w := Scenario.in_session Scenario.started None in
  let w' := exec (process_stage_input "concept" "   " false) w in
  blank "   " = true
  /\ result (click_next "concept" "   " false) w = Ok tt
  /\ result (process_stage_input "concept" "   " false) w = Ok None
  /\ option_map stages_data (enhancement_session w')
     = Some [("initial_idea", "A cat on a skateboard"); ("concept", "   ")]
  /\ history w'
     = (history w ++
        [{| timestamp := "T+8s"; action := "stage_completed";
            stage := Some "concept";
            data := [("user_input", "   ")] |}])%list.
Proof. vm_compute. repeat split; reflexivity. Qed.

(** C3, amended. The "Next" button is where blank input is stopped: with
    an empty or white-space-only input a click runs nothing, so the
    process is left exactly as it was — nothing written to [stages_data],
    no history entry, no request sent — and no error is raised. *)
Theorem next_button_ignores_blank_input (w : World)
    (stage_name user_input : string) (use_ai : bool) :
  blank user_input = true ->
  run (click_next stage_name user_input use_ai) w = (Ok tt, w).
Proof.
  unfold blank, click_next. intros H.
  apply negb_true_iff in H. now rewrite H.
Qed.

Lemma next_button_ignores_blank_input_witness :
  let w := Scenario.in_session Scenario.started (Some Scenario.echo_client) in
  blank "   " = true
  /\ run (click_next "concept" "   " true) w = (Ok tt, w).
Proof.
  intros w. split; [reflexivity|].
  exact (next_button_ignores_blank_input w "concept" "   " true eq_refl).
Defined.

(** C4, as the claim states it, fails: the text of a failed suggestion
    call is appended to the history as an [ai_suggestion] entry, after
    the [stage_completed] entry of the input. *)
Lemma failed_suggestion_is_recorded_in_history :
  let w := Scenario.in_session Scenario.started
             (Some Scenario.failing_client) in
  let submit :=
    process_stage_input "concept" "cinematic, park setting, comedic" true in
  result submit w
  = Ok (Some "Error getting suggestion: Incorrect API key provided")
  /\ history (exec submit w)
     = (history w ++
        [{| timestamp := "T+8s"; action := "stage_completed";
            stage := Some "concept";
            data := [("user_input", "cinematic, park setting, comedic")] |};
         {| timestamp := "T+9s"; action := "ai_suggestion";
            stage := Some "concept";
            data :=
              [("suggestion",
                "Error getting suggestion: Incorrect API key provided")] |}])%list.
Proof. vm_compute. split; reflexivity. Qed.

(** C4, amended. When the suggestion call raises, [process_stage_input]
    returns the error text as its suggestion instead of raising; the
    current stage is untouched and [stages_data] holds the user's input;
    the history gains the [stage_completed] entry and an [ai_suggestion]
    entry carrying the error text. *)
Theorem failed_suggestion_is_returned_and_recorded (w : World) (s : Session)
    (c : Client) (stage_name user_input : string) (info : StageInfo)
    (e : exn) :
  enhancement_session w = Some s ->
  client w = Some c ->
  blank user_input = false ->
  lookup REFINEMENT_STAGES stage_name = Some info ->
  c (requests_sent w)
    (suggestion_request info stage_name user_input
       (assign (stages_data s) stage_name user_input)) = Raise e ->
  is_Exception e = true ->
  let failure := "Error getting suggestion: " ++ str_exn e in
  let w' := exec (process_stage_input stage_name user_input true) w in
  result (process_stage_input stage_name user_input true) w = Ok (Some failure)
  /\ enhancement_session w'
     = Some {| active := active s;
               current_stage := current_stage s;
               stages_data := assign (stages_data s) stage_name user_input;
               iteration_history :=
                 (iteration_history s ++
                  [{| timestamp := isoformat (clock w (clock_reads w));
                      action := "stage_completed";
                      stage := Some stage_name;
                      data := [("user_input", user_input)] |};
                   {| timestamp := isoformat (clock w (S (clock_reads w)));
                      action := "ai_suggestion";
                      stage := Some stage_name;
                      data := [("suggestion", failure)] |}])%list;
               start_time := start_time s;
               final_prompt := final_prompt s |}.
Proof.
  destruct w as [sess cl cr ep cnt cf we clk reads reqs u lg out].
  cbn [enhancement_session client requests_sent clock clock_reads].
  intros -> -> _ Hinfo Hfail Hexc. cbv zeta.
  unfold process_stage_input.
  evaluate. rewrite Hinfo.
  evaluate. rewrite Hfail.
  evaluate. rewrite Hexc.
  evaluate. rewrite <- app_assoc. split; reflexivity.
Qed.

Lemma failed_suggestion_is_returned_and_recorded_witness :
  let w := Scenario.in_session Scenario.started
             (Some Scenario.failing_client) in
  result (process_stage_input "mood" "bright and energetic" true) w
  = Ok (Some "Error getting suggestion: Incorrect API key provided").
Proof.
  intros w.
  refine (proj1 (failed_suggestion_is_returned_and_recorded w Scenario.started
                   Scenario.failing_client "mood" "bright and energetic"
                   {| title := "🎨 Mood & Atmosphere";
                      description :=
                        "Set the emotional tone, lighting, and atmosphere";
                      questions := _; suggestions := _ |}
                   (ServiceError "Incorrect API key provided")
                   eq_refl eq_refl eq_refl eq_refl eq_refl eq_refl)).
Defined.

(** *** The history *)

(** C6, as the claim states it, fails for [start]: invoked while a
    session is active — the "Use as Template" buttons are drawn at every
    stage — it replaces a history of six entries by a single one. *)
Lemma start_discards_history_of_active_session :
  let w := Scenario.in_session Scenario.answered None in
  let w' := exec (perform (Start "A dog on a surfboard")) w in
  option_map active (enhancement_session w) = Some true
  /\ List.length (history w) = 6
  /\ List.length (history w') = 1
  /\ enhancement_session
       (exec (click_use_as_template "product_showcase"
                "Premium Product Showcase" "A dog on a surfboard") w)
     = enhancement_session w'
  /\ ~ extends w w'.
Proof.
  cbv zeta.
  do 4 (split; [vm_compute; reflexivity|]).
  intros [added H]. apply (f_equal (@List.length _)) in H.
  rewrite length_app in H. vm_compute in H. discriminate.
Qed.

(** C6, amended. Submitting a stage, advancing, synthesizing and exporting
    only ever add entries at the end of the history (or leave it as it
    is): the history before is a prefix of the history after.  [start]
    is the exception: it either leaves the history as it is (when the
    count it begins with raises) or replaces it by the single
    [session_started] entry of the new session. *)
Theorem history_is_append_only_except_for_start (op : EngineOp) (w : World) :
  let w' := exec (perform op) w in
  match op with
  | Start initial_idea =>
      history w' = history w
      \/ exists entry,
           history w' = [entry]
           /\ action entry = "session_started"
           /\ data entry = [("initial_idea", initial_idea)]
  | _ => extends w w'
  end.
Proof.
  destruct op as [initial_idea|stage_name user_input use_ai| | |]; cbv zeta;
    cbn [perform].
  - pose proof (start_enhancement_flow_run initial_idea w) as Hrun.
    destruct (init_enhancement_session_ensures w) as (s1 & Hs1 & Hh1).
    pose proof (untouched_enhanced_count_with_fallback
                  (exec init_enhancement_session w)) as Hsame.
    unfold same_session in Hsame. rewrite Hs1 in Hsame.
    unfold exec at 1 in Hsame.
    destruct (run enhanced_count_with_fallback _) as [[v|e] w2];
      cbn [snd] in Hsame.
    + right. destruct Hrun as [_ Hsess]. unfold history. rewrite Hsess.
      eexists. repeat split.
    + left. unfold exec. rewrite Hrun. cbn [snd].
      unfold history at 1. now rewrite Hsame.
  - apply (respects_bind _ extends_trans);
      [apply append_only_process_stage_input|].
    intros ?. apply (respects_ret _ extends_refl).
  - apply append_only_advance_to_next_stage.
  - apply append_only_generate_final_optimized_prompt.
  - apply (respects_bind _ extends_trans);
      [apply append_only_export_session_data|].
    intros ?. apply (respects_ret _ extends_refl).
Qed.

(** *** Leaving a finished session *)

(** C10. Leaving a finished session through "Start New Enhancement" sets
    [active] to false and clears [final_prompt] and nothing else: the
    stage answers and the history of the finished session stay in the
    session object, where an export still shows them, until the next
    [start_enhancement_flow] replaces them.  "Reset Session" is the other
    way round: it empties the answers and the history and leaves
    [final_prompt]. *)
Theorem start_new_enhancement_keeps_stale_data (w : World) (s : Session) :
  enhancement_session w = Some s ->
  let w' := exec click_start_new_enhancement w in
  enhancement_session w'
  = Some {| active := false;
            current_stage := current_stage s;
            stages_data := stages_data s;
            iteration_history := iteration_history s;
            start_time := start_time s;
            final_prompt := None |}
  /\ (exists x,
        result export_session_data w' = Ok x
        /\ refinement_stages x = filter not_initial_idea (stages_data s)
        /\ export_iteration_history x = iteration_history s
        /\ export_final_prompt x = None)
  /\ (forall initial_idea,
        enhanced_counts_numeric w = true ->
        exists entry_time started,
          enhancement_session (exec (start_enhancement_flow initial_idea) w')
          = Some (fresh_session initial_idea entry_time started))
  /\ (confirm_reset w = Some true ->
      enhancement_session (exec click_reset_session w)
      = Some {| active := false;
                current_stage := current_stage s;
                stages_data := [];
                iteration_history := [];
                start_time := start_time s;
                final_prompt := final_prompt s |}).
Proof.
  intros Hs. cbv zeta.
  set (s' := with_final_prompt None (with_active false s)).
  assert (Hw' : exec click_start_new_enhancement w = with_session (Some s') w)
    by (unfold exec; now rewrite (start_new_enhancement_run w s Hs)).
  rewrite Hw'.
  assert (Hs' : enhancement_session (with_session (Some s') w) = Some s')
    by now destruct w.
  split; [exact Hs'|]. split; [|split].
  - destruct (export_session_data_shows _ _ Hs') as (x & Hx & Hr & Hh & Hf).
    exists x. auto.
  - intros initial_idea Hnum.
    pose proof (start_enhancement_flow_run initial_idea
                  (with_session (Some s') w)) as Hrun.
    assert (Hnum' : enhanced_counts_numeric
                      (exec init_enhancement_session (with_session (Some s') w))
                    = true).
    { unfold exec. rewrite init_enhancement_session_run, Hs'. cbn [snd].
      now destruct w. }
    destruct (enhanced_count_returns _ Hnum') as [v Hv]. unfold result in Hv.
    destruct (run enhanced_count_with_fallback _) as [[v'|e] w2];
      cbn [fst] in Hv; [|discriminate].
    destruct Hrun as [_ Hsess]. eauto.
  - intros Hc. apply (confirmed_reset_session w s Hs Hc).
Qed.

Lemma start_new_enhancement_keeps_stale_data_witness :
  let w := Scenario.in_session Scenario.finished None in
  enhancement_session w = Some Scenario.finished
  /\ enhancement_session (exec click_start_new_enhancement w)
     = Some {| active := false;
               current_stage := "polish";
               stages_data := stages_data Scenario.answered;
               iteration_history := iteration_history Scenario.finished;
               start_time := Some (Scenario.ticking 2);
               final_prompt := None |}.
Proof.
  intros w. split; [reflexivity|].
  exact (proj1 (start_new_enhancement_keeps_stale_data w Scenario.finished
                  eq_refl)).
Defined.

(** *** Synthesis *)

(** Without a client, synthesis reports an error and changes nothing
    else. *)
Lemma synthesis_without_client_reports_error (w : World) (s : Session) :
  enhancement_session w = Some s ->
  client w = None ->
  run generate_final_optimized_prompt w
  = (Ok tt,
     with_ui (ui w ++ [StError "AI client not available for final prompt generation"])%list
       w).
Proof.
  destruct w as [sess cl cr ep cnt cf we clk reads reqs u lg out].
  cbn [enhancement_session client]. intros -> ->. reflexivity.
Qed.

(** When the model call raises, the error text becomes the final
    prompt. *)
Lemma failed_synthesis_sets_final_prompt (w : World) (s : Session)
    (c : Client) (e : exn) :
  enhancement_session w = Some s ->
  client w = Some c ->
  c (requests_sent w) (final_prompt_request (stages_data s)) = Raise e ->
  is_Exception e = true ->
  let failure := "Error generating final prompt: " ++ str_exn e in
  let w' := exec generate_final_optimized_prompt w in
  result generate_final_optimized_prompt w = Ok tt
  /\ ui w' = ui w
  /\ enhancement_session w'
     = Some {| active := active s;
               current_stage := current_stage s;
               stages_data := stages_data s;
               iteration_history :=
                 (iteration_history s ++
                  [{| timestamp := isoformat (clock w (clock_reads w));
                      action := "final_prompt_generated";
                      stage := None;
                      data := [("final_prompt", failure)] |}])%list;
               start_time := start_time s;
               final_prompt := Some failure |}.
Proof.
  destruct w as [sess cl cr ep cnt cf we clk reads reqs u lg out].
  cbn [enhancement_session client requests_sent clock clock_reads ui].
  intros -> -> Hfail Hexc. cbv zeta.
  unfold generate_final_optimized_prompt.
  evaluate. rewrite Hfail.
  evaluate. rewrite Hexc.
  evaluate. repeat split.
Qed.

(** C1. With every stage answered and a client whose call raises,
    synthesis returns normally without reporting an error, stores the
    error text as [final_prompt] and appends a [final_prompt_generated]
    entry: the session is in its finished state, which is what the claim
    rules out.  So does the last "Next" click, which reaches synthesis
    through [advance_to_next_stage]. *)
Theorem failed_synthesis_finishes_the_session :
  let w := Scenario.in_session Scenario.answered
             (Some Scenario.failing_client) in
  let w' := exec generate_final_optimized_prompt w in
  let failure := "Error generating final prompt: Incorrect API key provided" in
  option_map final_prompt (enhancement_session w) = Some None
  /\ result generate_final_optimized_prompt w = Ok tt
  /\ ui w' = ui w
  /\ option_map final_prompt (enhancement_session w') = Some (Some failure)
  /\ history w'
     = (history w ++
        [{| timestamp := "T+8s"; action := "final_prompt_generated";
            stage := None; data := [("final_prompt", failure)] |}])%list
  /\ enhancement_session (exec advance_to_next_stage w)
     = enhancement_session w'.
Proof. vm_compute. repeat split; reflexivity. Qed.

End SessionProps.
